(** * Monitor Switcher: a shallow embedding of [monitor_switcher.py]

    The development follows the classes of the program:
    [Config], [MonitorController], [KMSwitchDetector] and
    [MonitorSwitcherApp].  Every method is a computation in a small
    state-and-exception monad.  Whatever lies outside a Python object
    (the DDC/CI bus, the Windows API, the file system, the tray icon)
    is an abstract state [Σ] on which the external calls act; each
    external call, log line and sleep is appended to a journal, so that
    statements about "what the program did" are statements about the
    journal. *)

From Stdlib Require Import ZArith QArith.
From stdpp Require Import base option list strings gmap.

Local Open Scope string_scope.
Local Open Scope list_scope.
Local Open Scope Z_scope.

(** ** Python values, exceptions and results *)

(** The exceptions the program tells apart: [VCPError] of the
    monitorcontrol library against any other subclass of [Exception]
    (named by its class).  Every [except] clause of the program other
    than the bare one of the keyboard probe is [except Exception]; the
    signals below [Exception] ([KeyboardInterrupt], [SystemExit]) are
    not failures of a query and are not represented. *)
Inductive exn :=
| VCPError (detail : string)
| OtherException (class detail : string).

Inductive outcome (A : Type) :=
| Returned (a : A)
| Raised (e : exn).
Arguments Returned {A} a.
Arguments Raised {A} e.

Definition returned {A} (r : outcome A) : bool :=
  match r with Returned _ => true | Raised _ => false end.

(** The values a JSON configuration holds here.  All of them are
    hashable, so [v in INPUT_SOURCES] is defined for each. *)
Inductive value :=
| VStr (s : string)
| VInt (n : Z)
| VFloat (q : Q).

(** The two machines; as Python strings ["home"] and ["work"]. *)
Inductive machine := Home | Work.

Definition machine_str (m : machine) : string :=
  match m with Home => "home" | Work => "work" end.

Definition machine_eqb (a b : machine) : bool :=
  match a, b with Home, Home | Work, Work => true | _, _ => false end.

#[global] Instance machine_eq_dec : EqDecision machine.
Proof. solve_decision. Defined.

(** [monitorcontrol.InputSource] members used by the program, and the
    values of the [INPUT_SOURCES] table: a member or a raw VCP code. *)
Inductive InputSource := HDMI1 | HDMI2 | DP1 | DP2 | DVI1 | DVI2.

Inductive source_code :=
| Member (s : InputSource)
| RawCode (n : Z).

(** A [Monitor] object of the monitorcontrol library, by identity. *)
Definition Monitor := nat.

Inductive vkey := VK_SHIFT | VK_CONTROL | VK_MENU.

(** ** The journal *)

Inductive level := INFO | WARNING | ERROR.

(** One constructor per format string passed to [logger]. *)
Inductive message :=
| ConfigurationSaved
| ErrorSavingConfig (e : exn)
| ConnectedToMonitor (index : Z)
| NoMonitorFound (index : Z)
| ErrorInitializingMonitor (e : exn)
| NoMonitorConnectedReconnecting
| UnknownInputSource (input_name : value)
| SwitchedMonitorTo (input_name : value)
| VCPErrorSwitchingInput (e : exn)
| ErrorSwitchingInput (e : exn)
| KMSwitchDetected (old new : machine)
| ErrorInMonitorLoop (e : exn)
| ErrorCountingDevices (e : exn)
| SwitchingToMachine (m : machine).

(** The two notifications of [_on_km_switch]. *)
Inductive notification :=
| SwitchedNote (m : machine) (input_name : value)
| FailedNote (input_name : value).

(** Calls that leave the program. *)
Inductive call :=
| get_monitors_call
| monitor_enter_call (m : Monitor)
| set_input_source_call (m : Monitor) (src : source_code)
| monitor_exit_call (m : Monitor)
| GetSystemMetrics_call
| GetKeyState_call (vk : vkey)
| callback_call (m : machine)
| json_dump_call (file : string) (data : gmap string value)
| notify_call (n : notification).

Inductive effect :=
| Logged (lvl : level) (msg : message)
| Called (c : call)
| Slept (seconds : Q).

(** ** The monad *)

(** A method runs on its object [self], the outside world and the
    journal.  A raised exception keeps the state reached so far, as in
    Python. *)
Record frame (Σ O : Type) := Frame {
  self : O;
  outside : Σ;
  journal : list effect
}.
Arguments Frame {Σ O} self outside journal.
Arguments self {Σ O} f.
Arguments outside {Σ O} f.
Arguments journal {Σ O} f.

Definition M (Σ O A : Type) : Type := frame Σ O -> outcome A * frame Σ O.

(** An external operation: it sees and changes only the outside. *)
Definition external (Σ A : Type) : Type := Σ -> outcome A * Σ.

Section Monad.
Context {Σ O : Type}.

Definition ret {A} (a : A) : M Σ O A := fun s => (Returned a, s).

Definition bind {A B} (m : M Σ O A) (k : A -> M Σ O B) : M Σ O B :=
  fun s =>
    match m s with
    | (Returned a, s') => k a s'
    | (Raised e, s') => (Raised e, s')
    end.

Definition raise {A} (e : exn) : M Σ O A := fun s => (Raised e, s).

(** [try: body  except Exception as e: handler e] *)
Definition try_except {A} (body : M Σ O A) (handler : exn -> M Σ O A)
  : M Σ O A :=
  fun s =>
    match body s with
    | (Returned a, s') => (Returned a, s')
    | (Raised e, s') => handler e s'
    end.

Definition get_self : M Σ O O := fun s => (Returned (self s), s).

Definition set_self (o : O) : M Σ O unit :=
  fun s => (Returned tt, Frame o (outside s) (journal s)).

Definition record (e : effect) : M Σ O unit :=
  fun s => (Returned tt, Frame (self s) (outside s) (journal s ++ [e])).

(** [logger.info], [logger.warning], [logger.error]. *)
Definition log (lvl : level) (msg : message) : M Σ O unit :=
  record (Logged lvl msg).

(** [time.sleep] *)
Definition sleep (seconds : Q) : M Σ O unit := record (Slept seconds).

(** An external call: journalled, then run on the outside. *)
Definition invoke {A} (c : call) (op : external Σ A) : M Σ O A :=
  fun s =>
    let '(r, σ) := op (outside s) in
    (r, Frame (self s) σ (journal s ++ [Called c])).

Definition of_outcome {A} (r : outcome A) : M Σ O A := fun s => (r, s).
End Monad.

(** A method of the object held in a field of [self]. *)
Definition on_field {Σ O P A} (get : O -> P) (set : P -> O -> O)
    (m : M Σ P A) : M Σ O A :=
  fun s =>
    let '(r, t) := m (Frame (get (self s)) (outside s) (journal s)) in
    (r, Frame (set (self t) (self s)) (outside t) (journal t)).

Declare Scope py_scope.
Delimit Scope py_scope with py.
Notation "x <- c ;; k" := (bind c (fun x => k))
  (at level 100, c at next level, right associativity) : py_scope.
Notation "c ;; k" := (bind c (fun _ => k))
  (at level 100, right associativity) : py_scope.
Local Open Scope py_scope.

(** What a stretch of the journal contains. *)
Definition is_call (c : effect) : bool :=
  match c with Called _ => true | _ => false end.

Definition is_get_monitors (e : effect) : bool :=
  match e with Called get_monitors_call => true | _ => false end.

Definition is_json_dump (e : effect) : bool :=
  match e with Called (json_dump_call _ _) => true | _ => false end.

Definition is_logged (e : effect) : bool :=
  match e with Logged _ _ => true | _ => false end.

Definition count (p : effect -> bool) (j : list effect) : nat :=
  length (List.filter p j).

(** The machines handed to the callback, in order. *)
Fixpoint events (j : list effect) : list machine :=
  match j with
  | [] => []
  | Called (callback_call m) :: j' => m :: events j'
  | _ :: j' => events j'
  end.

(** The sleeps taken, in order. *)
Fixpoint sleeps (j : list effect) : list Q :=
  match j with
  | [] => []
  | Slept q :: j' => q :: sleeps j'
  | _ :: j' => sleeps j'
  end.

(** ** [class MonitorController] *)

(** [INPUT_SOURCES] *)
Definition INPUT_SOURCES : gmap string source_code :=
  <["HDMI-1" := Member HDMI1]> (
  <["HDMI-2" := Member HDMI2]> (
  <["DisplayPort-1" := Member DP1]> (
  <["DisplayPort-2" := Member DP2]> (
  <["DVI-1" := Member DVI1]> (
  <["DVI-2" := Member DVI2]> (
  <["VGA-1" := RawCode 1]> ∅)))))).

(** [INPUT_SOURCES.get(v)]: the keys are strings, so only a string can
    be found. *)
Definition input_source_of (v : value) : option source_code :=
  match v with
  | VStr s => INPUT_SOURCES !! s
  | _ => None
  end.

Record MonitorController := {
  monitor_index : Z;
  monitor : option Monitor
}.

(** [l[i]] on a Python list: negative indices count from the end. *)
Definition py_getitem {A} (l : list A) (i : Z) : outcome A :=
  let n := Z.of_nat (length l) in
  let j := if i <? 0 then i + n else i in
  if (0 <=? j) && (j <? n) then
    match l !! Z.to_nat j with
    | Some x => Returned x
    | None => Raised (OtherException "IndexError" "list index out of range")
    end
  else Raised (OtherException "IndexError" "list index out of range").

Section Controller.
Context {Σ : Type}.
(** The monitor-control collaborator. *)
Variable get_monitors : external Σ (list Monitor).
Variable monitor_enter : Monitor -> external Σ unit.
Variable set_input_source : Monitor -> source_code -> external Σ unit.
Variable monitor_exit : Monitor -> external Σ unit.

Definition _init_monitor : M Σ MonitorController unit :=
  try_except
    (monitors <- invoke get_monitors_call get_monitors ;;
     c <- get_self ;;
     if negb (Z.of_nat (length monitors) =? 0)
        && (Z.of_nat (length monitors) >? monitor_index c)
     then
       m <- of_outcome (py_getitem monitors (monitor_index c)) ;;
       set_self {| monitor_index := monitor_index c; monitor := Some m |} ;;
       log INFO (ConnectedToMonitor (monitor_index c))
     else
       log WARNING (NoMonitorFound (monitor_index c)))
    (fun e => log ERROR (ErrorInitializingMonitor e)).

(** [with m: body].  [Monitor.__exit__] releases the handle and does
    not swallow the exception of the body; an exception of its own
    replaces it. *)
Definition with_monitor {A} (m : Monitor) (body : M Σ MonitorController A)
  : M Σ MonitorController A :=
  invoke (monitor_enter_call m) (monitor_enter m) ;;
  fun s =>
    let '(r, s1) := body s in
    match invoke (monitor_exit_call m) (monitor_exit m) s1 with
    | (Returned _, s2) => (r, s2)
    | (Raised e, s2) => (Raised e, s2)
    end.

(** Lines 115-130 of [switch_input]: the part that runs once a
    monitor is connected. *)
Definition switch_connected (input_name : value)
  : M Σ MonitorController bool :=
  match input_source_of input_name with
  | None =>
      log ERROR (UnknownInputSource input_name) ;;
      ret false
  | Some input_source =>
      try_except
        (c <- get_self ;;
         match monitor c with
         | Some m =>
             with_monitor m
               (invoke (set_input_source_call m input_source)
                  (set_input_source m input_source))
         | None =>
             raise (OtherException "AttributeError" "__enter__")
         end ;;
         log INFO (SwitchedMonitorTo input_name) ;;
         ret true)
        (fun e =>
           match e with
           | VCPError _ =>
               log ERROR (VCPErrorSwitchingInput e) ;; ret false
           | OtherException _ _ =>
               log ERROR (ErrorSwitchingInput e) ;; ret false
           end)
  end.

Definition switch_input (input_name : value) : M Σ MonitorController bool :=
  c <- get_self ;;
  match monitor c with
  | None =>
      log WARNING NoMonitorConnectedReconnecting ;;
      _init_monitor ;;
      c' <- get_self ;;
      match monitor c' with
      | None => ret false
      | Some _ => switch_connected input_name
      end
  | Some _ => switch_connected input_name
  end.

(** The collaborator is healthy for a controller on index [idx]: a
    connection finds a monitor at that index and the bus carries out
    every scoped command. *)
Definition healthy (idx : Z) : Prop :=
  (forall σ, exists ms,
      (get_monitors σ).1 = Returned ms
      /\ 0 <= idx < Z.of_nat (length ms))
  /\ (forall m σ, returned (monitor_enter m σ).1 = true)
  /\ (forall m src σ, returned (set_input_source m src σ).1 = true)
  /\ (forall m σ, returned (monitor_exit m σ).1 = true).
End Controller.

(** ** [class KMSwitchDetector] *)

(** The fields the monitoring loop uses.  [running] is cleared by
    [stop] from the tray thread; the loop below is given the number of
    iterations that found it set. *)
Record KMSwitchDetector := {
  last_device_count : Z;
  last_state : machine
}.

(** [__init__]: count 0, "Assume starting on home machine". *)
Definition KMSwitchDetector_init : KMSwitchDetector :=
  {| last_device_count := 0; last_state := Home |}.

Fixpoint for_each {Σ O A} (l : list A) (body : A -> M Σ O unit)
  : M Σ O unit :=
  match l with
  | [] => ret tt
  | x :: l' => body x ;; for_each l' body
  end.

Fixpoint repeat_m {Σ O} (n : nat) (body : M Σ O unit) : M Σ O unit :=
  match n with
  | O => ret tt
  | S n' => body ;; repeat_m n' body
  end.

Section Detector.
Context {Σ : Type}.
(** The Windows API and the callback given to the constructor. *)
Variable GetSystemMetrics : external Σ Z.
Variable GetKeyState : vkey -> external Σ Z.
Variable callback : machine -> external Σ unit.

Definition _count_input_devices : M Σ KMSwitchDetector Z :=
  try_except
    (let device_count := 0 in
     buttons <- invoke GetSystemMetrics_call GetSystemMetrics ;;
     let device_count := device_count + buttons in
     device_count <-
       try_except
         (for_each [VK_SHIFT; VK_CONTROL; VK_MENU]
            (fun vk => invoke (GetKeyState_call vk) (GetKeyState vk) ;;
                       ret tt) ;;
          ret (device_count + 2))
         (fun _ => ret device_count) ;;
     ret device_count)
    (fun e => log ERROR (ErrorCountingDevices e) ;; ret 0).

(** Whether the three [GetKeyState] queries of the keyboard probe all
    return, the outside being threaded through them. *)
Definition keyboard_answers (σ : Σ) : bool :=
  match GetKeyState VK_SHIFT σ with
  | (Returned _, σ1) =>
      match GetKeyState VK_CONTROL σ1 with
      | (Returned _, σ2) => returned (GetKeyState VK_MENU σ2).1
      | (Raised _, _) => false
      end
  | (Raised _, _) => false
  end.

(** Lines 183-199: what the loop body does with the count it read. *)
Definition on_count (current_count : Z) : M Σ KMSwitchDetector unit :=
  d <- get_self ;;
  (if Z.abs (current_count - last_device_count d) >=? 1 then
     let new_state :=
       if current_count >? last_device_count d then Home else Work in
     (if negb (machine_eqb new_state (last_state d)) then
        log INFO (KMSwitchDetected (last_state d) new_state) ;;
        set_self {| last_device_count := last_device_count d;
                    last_state := new_state |} ;;
        invoke (callback_call new_state) (callback new_state)
      else ret tt) ;;
     d' <- get_self ;;
     set_self {| last_device_count := current_count;
                 last_state := last_state d' |}
   else ret tt) ;;
  sleep 2.

(** One iteration of [while self.running], the count being read by
    [sampler]. *)
Definition tick_with (sampler : M Σ KMSwitchDetector Z)
  : M Σ KMSwitchDetector unit :=
  try_except
    (current_count <- sampler ;;
     on_count current_count)
    (fun e => log ERROR (ErrorInMonitorLoop e) ;; sleep 5).

Definition tick : M Σ KMSwitchDetector unit :=
  tick_with _count_input_devices.

Definition _monitor_loop (iterations : nat) : M Σ KMSwitchDetector unit :=
  count0 <- _count_input_devices ;;
  d <- get_self ;;
  set_self {| last_device_count := count0; last_state := last_state d |} ;;
  repeat_m iterations tick.

(** The same iteration fed a given presence score. *)
Definition feed (score : Z) : M Σ KMSwitchDetector unit :=
  tick_with (ret score).

(** The loop fed a sequence of scores: the first one is the initial
    count, each later one is one iteration. *)
Definition run_scores (scores : list Z) : M Σ KMSwitchDetector unit :=
  match scores with
  | [] => ret tt
  | count0 :: rest =>
      d <- get_self ;;
      set_self {| last_device_count := count0;
                  last_state := last_state d |} ;;
      for_each rest feed
  end.

(** The iteration fails: the callback is invoked for the count
    [score] and raises. *)
Definition callback_raises (d : KMSwitchDetector) (score : Z) (σ : Σ)
  : bool :=
  let new_state :=
    if score >? last_device_count d then Home else Work in
  (Z.abs (score - last_device_count d) >=? 1)
  && negb (machine_eqb new_state (last_state d))
  && negb (returned (callback new_state σ).1).
End Detector.

(** ** Vocabulary of the specification *)

(** "candidate new state = Home if currentScore > lastScore else Work" *)
Definition spec_candidate (lastScore currentScore : Z) : machine :=
  if bool_decide (currentScore > lastScore) then Home else Work.

(** "no duplicate consecutive events": each event differs from the one
    before it, the first from the state the run starts in. *)
Fixpoint alternating (current : machine) (evs : list machine) : bool :=
  match evs with
  | [] => true
  | m :: rest => negb (machine_eqb m current) && alternating m rest
  end.

(** The presence-count transitions of a score sequence: the positions
    whose score differs from the score before. *)
Fixpoint transitions (previous : Z) (scores : list Z) : nat :=
  match scores with
  | [] => O
  | c :: rest =>
      if c =? previous then transitions c rest else S (transitions c rest)
  end.

(** How the tracked count relates to the score fed last: it equals it,
    or its update was skipped and the score lies on the side of it that
    the tracked state names. *)
Definition follows (previous : Z) (d : KMSwitchDetector) : Prop :=
  last_device_count d = previous
  \/ (last_state d = Work /\ previous < last_device_count d)
  \/ (last_state d = Home /\ last_device_count d < previous).

(** "on three consecutive tick failures, widen the interval (5 seconds)
    until a successful tick resets it to default": the interval after a
    tick that ends a run of [failures] consecutive failed ticks. *)
Definition spec_interval (failures : nat) : Q :=
  if (3 <=? failures)%nat then 5 else 2.

(** ** [class Config] *)

Record Config := {
  config_file : string;
  data : gmap string value
}.

(** The default configuration of [_load_config]. *)
Definition default_data : gmap string value :=
  <["home_machine_input" := VStr "HDMI-1"]> (
  <["work_laptop_input" := VStr "HDMI-2"]> (
  <["monitor_index" := VInt 0]> (
  <["check_interval" := VFloat 2]> (
  <["last_active_machine" := VStr "home"]> ∅)))).

Section ConfigMethods.
Context {Σ : Type}.
(** [open(file, 'w')] followed by [json.dump]. *)
Variable json_dump : string -> gmap string value -> external Σ unit.

Definition Config_save : M Σ Config unit :=
  try_except
    (c <- get_self ;;
     invoke (json_dump_call (config_file c) (data c))
       (json_dump (config_file c) (data c)) ;;
     log INFO ConfigurationSaved)
    (fun e => log ERROR (ErrorSavingConfig e)).

Definition Config_get (key : string) (default : value) : M Σ Config value :=
  c <- get_self ;;
  ret (from_option id default (data c !! key)).

Definition Config_set (key : string) (v : value) : M Σ Config unit :=
  c <- get_self ;;
  set_self {| config_file := config_file c; data := <[key := v]> (data c) |} ;;
  Config_save.
End ConfigMethods.

(** ** [class MonitorSwitcherApp] *)

(** The tray icon, by identity; [None] until [run] has built it. *)
Definition Icon := nat.

(** [km_detector] is left out: its fields are touched by the detector's
    own thread only, and the detector reaches the application through
    its callback. *)
Record MonitorSwitcherApp := {
  config : Config;
  monitor_controller : MonitorController;
  icon : option Icon
}.

Definition with_config (c : Config) (a : MonitorSwitcherApp) :=
  {| config := c; monitor_controller := monitor_controller a; icon := icon a |}.

Definition with_controller (c : MonitorController) (a : MonitorSwitcherApp) :=
  {| config := config a; monitor_controller := c; icon := icon a |}.

Section App.
Context {Σ : Type}.
Variable get_monitors : external Σ (list Monitor).
Variable monitor_enter : Monitor -> external Σ unit.
Variable set_input_source : Monitor -> source_code -> external Σ unit.
Variable monitor_exit : Monitor -> external Σ unit.
Variable json_dump : string -> gmap string value -> external Σ unit.
Variable notify : Icon -> notification -> external Σ unit.

(** The input the configuration names for a machine, with the
    defaults of lines 350 and 352. *)
Definition configured_input (m : machine) (c : Config) : value :=
  match m with
  | Home =>
      from_option id (VStr "HDMI-1") (data c !! "home_machine_input")
  | Work =>
      from_option id (VStr "HDMI-2") (data c !! "work_laptop_input")
  end.

Definition _on_km_switch (m : machine) : M Σ MonitorSwitcherApp unit :=
  log INFO (SwitchingToMachine m) ;;
  input_name <-
    (if machine_eqb m Home then
       on_field config with_config
         (Config_get "home_machine_input" (VStr "HDMI-1"))
     else
       on_field config with_config
         (Config_get "work_laptop_input" (VStr "HDMI-2"))) ;;
  success <-
    on_field monitor_controller with_controller
      (switch_input get_monitors monitor_enter set_input_source
         monitor_exit input_name) ;;
  a <- get_self ;;
  if (success : bool) then
    on_field config with_config
      (Config_set json_dump "last_active_machine" (VStr (machine_str m))) ;;
    match icon a with
    | Some i =>
        invoke (notify_call (SwitchedNote m input_name))
          (notify i (SwitchedNote m input_name))
    | None => ret tt
    end
  else
    match icon a with
    | Some i =>
        invoke (notify_call (FailedNote input_name))
          (notify i (FailedNote input_name))
    | None => ret tt
    end.
End App.

(** ** The wiring of [MonitorSwitcherApp.__init__] *)

(** [KMSwitchDetector(callback=self._on_km_switch)]: seen from the
    detector, the outside is the application together with the
    application's own outside and journal, and the Windows API acts on
    the outside of that frame. *)
Definition inside {Σ O A} (op : external Σ A) : external (frame Σ O) A :=
  fun f =>
    let '(r, σ) := op (outside f) in
    (r, Frame (self f) σ (journal f)).

Section Wiring.
Context {Σ : Type}.
Variable GetSystemMetrics : external Σ Z.
Variable GetKeyState : vkey -> external Σ Z.
Variable get_monitors : external Σ (list Monitor).
Variable monitor_enter : Monitor -> external Σ unit.
Variable set_input_source : Monitor -> source_code -> external Σ unit.
Variable monitor_exit : Monitor -> external Σ unit.
Variable json_dump : string -> gmap string value -> external Σ unit.
Variable notify : Icon -> notification -> external Σ unit.

(** [km_detector._monitor_loop] of the application. *)
Definition app_monitor_loop (iterations : nat)
  : M (frame Σ MonitorSwitcherApp) KMSwitchDetector unit :=
  _monitor_loop (inside GetSystemMetrics)
    (fun vk => inside (GetKeyState vk))
    (_on_km_switch get_monitors monitor_enter set_input_source
       monitor_exit json_dump notify)
    iterations.
End Wiring.

(** ** Collaborators for the worked scenarios *)

Definition always {Σ A} (a : A) : external Σ A := fun σ => (Returned a, σ).

Definition failing {Σ A} (e : exn) : external Σ A := fun σ => (Raised e, σ).

(** A collaborator that answers from a script, then with [otherwise]. *)
Definition scripted {A} (otherwise : outcome A)
  : external (list (outcome A)) A :=
  fun σ =>
    match σ with
    | [] => (otherwise, [])
    | r :: σ' => (r, σ')
    end.

Definition os_error : exn := OtherException "OSError" "call failed".

(** ** The rest of the classes *)

(** The methods below make calls and write log lines that the journal
    has no entry for.  Such a call runs on the outside without being
    journalled, and such a log line is handed to the logging
    collaborator, which is part of the outside. *)
Definition perform {Σ O A} (op : external Σ A) : M Σ O A :=
  fun s =>
    let '(r, σ) := op (outside s) in
    (r, Frame (self s) σ (journal s)).

Inductive more_message :=
| ErrorLoadingConfig (e : exn)
| ErrorGettingCurrentInput (e : exn).

Definition log_more {Σ O} (logger : level -> more_message -> Σ -> Σ)
    (lvl : level) (msg : more_message) : M Σ O unit :=
  fun s => (Returned tt, Frame (self s) (logger lvl msg (outside s)) (journal s)).

(** *** [Config.__init__] and [_load_config] *)

Section ConfigLoading.
Context {Σ : Type}.
(** [Path.exists], then [open] and [json.load]. *)
Variable path_exists : string -> external Σ bool.
Variable json_load : string -> external Σ (gmap string value).
Variable logger : level -> more_message -> Σ -> Σ.

Definition _load_config {O} (config_file : string)
  : M Σ O (gmap string value) :=
  found <- perform (path_exists config_file) ;;
  loaded <-
    (if (found : bool) then
       try_except
         (d <- perform (json_load config_file) ;;
          ret (Some d))
         (fun e => log_more logger ERROR (ErrorLoadingConfig e) ;; ret None)
     else ret None) ;;
  match loaded with
  | Some d => ret d
  | None => ret default_data
  end.

(** [Config(config_file)] *)
Definition Config_new {O} (config_file : string) : M Σ O Config :=
  d <- _load_config config_file ;;
  ret {| config_file := config_file; data := d |}.
End ConfigLoading.

(** *** [MonitorController.__init__] and [get_current_input] *)

(** [INPUT_SOURCES.items()], in the order of the dictionary display. *)
Definition INPUT_SOURCES_items : list (string * source_code) :=
  [("HDMI-1", Member HDMI1);
   ("HDMI-2", Member HDMI2);
   ("DisplayPort-1", Member DP1);
   ("DisplayPort-2", Member DP2);
   ("DVI-1", Member DVI1);
   ("DVI-2", Member DVI2);
   ("VGA-1", RawCode 1)].

(** The [for] loop of [get_current_input]: the first name whose source
    equals [current], where [equals source current] stands for Python's
    [source == current]. *)
Fixpoint matching_name {R} (equals : source_code -> R -> bool)
    (items : list (string * source_code)) (current : R) : option string :=
  match items with
  | [] => None
  | (name, source) :: rest =>
      if equals source current then Some name
      else matching_name equals rest current
  end.
Arguments matching_name {R} equals items current : simpl never.

Section ControllerRest.
Context {Σ R : Type}.
Variable get_monitors : external Σ (list Monitor).
Variable monitor_enter : Monitor -> external Σ unit.
(** What [Monitor.get_input_source] returns is a value of the library,
    of a type [R] left open here, and so is the outcome of
    [source == current] on it: whether a member of [InputSource] equals
    an integer depends on the kind of enumeration the library declares. *)
Variable get_input_source : Monitor -> external Σ R.
Variable source_equals : source_code -> R -> bool.
Variable monitor_exit : Monitor -> external Σ unit.
Variable logger : level -> more_message -> Σ -> Σ.

(** [MonitorController(monitor_index)] *)
Definition MonitorController_new {O} (monitor_index : Z)
  : M Σ O MonitorController :=
  fun s =>
    let '(r, t) :=
      _init_monitor get_monitors
        (Frame {| monitor_index := monitor_index; monitor := None |}
           (outside s) (journal s)) in
    (match r with
     | Returned _ => Returned (self t)
     | Raised e => Raised e
     end,
     Frame (self s) (outside t) (journal t)).

Definition get_current_input : M Σ MonitorController (option string) :=
  c <- get_self ;;
  match monitor c with
  | None => ret None
  | Some m =>
      try_except
        (with_monitor monitor_enter monitor_exit m
           (current <- perform (get_input_source m) ;;
            ret (matching_name source_equals INPUT_SOURCES_items current)))
        (fun e =>
           log_more logger ERROR (ErrorGettingCurrentInput e) ;;
           ret None)
  end.
End ControllerRest.

(** *** [ConfigWindow._save] *)

(** The input names both comboboxes offer (lines 277 and 284). *)
Definition combobox_values : list string :=
  ["HDMI-1"; "HDMI-2"; "DisplayPort-1"; "DisplayPort-2"; "DVI-1"; "VGA-1"].

Section ConfigWindow.
Context {Σ : Type}.
Variable json_dump : string -> gmap string value -> external Σ unit.
(** The widgets of the window, the built-in [int], and the callback
    given to the constructor. *)
Variable home_input_get : external Σ string.
Variable work_input_get : external Σ string.
Variable monitor_index_get : external Σ string.
Variable int : string -> outcome Z.
Variable status_label_config : external Σ unit.
Variable on_save_callback : option (external Σ unit).
Variable root_after : external Σ unit.

(** The window works on the [Config] object it was given. *)
Definition _save : M Σ Config unit :=
  home <- perform home_input_get ;;
  Config_set json_dump "home_machine_input" (VStr home) ;;
  work <- perform work_input_get ;;
  Config_set json_dump "work_laptop_input" (VStr work) ;;
  text <- perform monitor_index_get ;;
  index <- of_outcome (int text) ;;
  Config_set json_dump "monitor_index" (VInt index) ;;
  perform status_label_config ;;
  match on_save_callback with
  | Some callback => perform callback
  | None => ret tt
  end ;;
  perform root_after.
End ConfigWindow.

(** *** Collaborators for the scenarios of these methods *)

(** A library whose readings are VCP codes and whose members compare
    by code: the codes of the six members, and [source == current]. *)
Definition vcp_code (source : source_code) : Z :=
  match source with
  | Member HDMI1 => 17
  | Member HDMI2 => 18
  | Member DP1 => 15
  | Member DP2 => 16
  | Member DVI1 => 3
  | Member DVI2 => 4
  | RawCode n => n
  end.

Definition equal_by_code (source : source_code) (current : Z) : bool :=
  vcp_code source =? current.

(** A monitor that remembers the input it was set to and reports its
    code. *)
Definition remembering_set (m : Monitor) (src : source_code)
  : external (option source_code) unit :=
  fun _ => (Returned tt, Some src).

Definition remembering_get (m : Monitor)
  : external (option source_code) Z :=
  fun σ =>
    match σ with
    | Some src => (Returned (vcp_code src), σ)
    | None => (Raised (VCPError "no input selected"), σ)
    end.

(** A logging collaborator that ignores the line. *)
Definition no_logger {Σ} (lvl : level) (msg : more_message) (σ : Σ) : Σ := σ.

(** * Proofs *)

(** ** Journal bookkeeping *)

Lemma count_app p (a b : list effect) :
  count p (a ++ b) = (count p a + count p b)%nat.
Proof. unfold count. by rewrite List.filter_app, length_app. Qed.

Lemma count_snoc p j e :
  count p (j ++ [e]) = (count p j + (if p e then 1 else 0))%nat.
Proof. rewrite count_app. unfold count. simpl. by destruct (p e). Qed.

Lemma events_app a b : events (a ++ b) = events a ++ events b.
Proof.
  induction a as [|[? ?|[]|?] a IH]; simpl; try done. by rewrite IH.
Qed.

Lemma sleeps_app a b : sleeps (a ++ b) = sleeps a ++ sleeps b.
Proof.
  induction a as [|[] a IH]; simpl; try done. by rewrite IH.
Qed.

(** Unfolds the monad's combinators at the head of the goal. *)
Ltac run_m :=
  repeat (cbn [fst snd self outside journal monitor monitor_index
               last_device_count last_state config monitor_controller icon
               data config_file] in *;
          unfold bind, ret, try_except, raise, get_self, set_self, log, sleep,
                 record, invoke, of_outcome, on_field in *).

(** ** The controller *)

Section ControllerFacts.
Context {Σ : Type}.
Variable get_monitors : external Σ (list Monitor).
Variable monitor_enter : Monitor -> external Σ unit.
Variable set_input_source : Monitor -> source_code -> external Σ unit.
Variable monitor_exit : Monitor -> external Σ unit.

Let switch :=
  switch_input get_monitors monitor_enter set_input_source monitor_exit.
Let connected :=
  switch_connected (Σ:=Σ) monitor_enter set_input_source monitor_exit.
Let scoped_set (m : Monitor) (src : source_code) :=
  with_monitor (Σ:=Σ) (A:=unit) monitor_enter monitor_exit m
    (invoke (set_input_source_call m src) (set_input_source m src)).

(** The scoped command leaves the controller alone and connects to
    nothing. *)
Lemma scoped_set_frame m src c σ j :
  let res := scoped_set m src (Frame c σ j) in
  self res.2 = c
  /\ count is_get_monitors (journal res.2) = count is_get_monitors j.
Proof.
  unfold scoped_set, with_monitor. run_m.
  destruct (monitor_enter m σ) as [[[]|e] σ1]; run_m.
  2:{ rewrite !count_snoc; simpl. split; [done|lia]. }
  destruct (set_input_source m src σ1) as [[[]|e] σ2]; run_m;
    destruct (monitor_exit m σ2) as [[[]|e'] σ3]; run_m;
    rewrite !count_snoc; simpl; (split; [done|lia]).
Qed.

(** With a monitor and a supported input, the result is decided by
    the scoped command alone. *)
Lemma switch_connected_known m src name s :
  monitor (self s) = Some m ->
  input_source_of name = Some src ->
  connected name s =
  match scoped_set m src s with
  | (Returned _, s1) =>
      (Returned true,
       Frame (self s1) (outside s1)
         (journal s1 ++ [Logged INFO (SwitchedMonitorTo name)]))
  | (Raised (VCPError d), s1) =>
      (Returned false,
       Frame (self s1) (outside s1)
         (journal s1 ++ [Logged ERROR (VCPErrorSwitchingInput (VCPError d))]))
  | (Raised (OtherException c d), s1) =>
      (Returned false,
       Frame (self s1) (outside s1)
         (journal s1
            ++ [Logged ERROR (ErrorSwitchingInput (OtherException c d))]))
  end.
Proof.
  intros Hm Hsrc. unfold connected, switch_connected. rewrite Hsrc. run_m.
  rewrite Hm. fold (scoped_set m src).
  destruct (scoped_set m src s) as [[[]|[d|c d]] s1]; by run_m.
Qed.

Lemma switch_connected_unknown name s :
  input_source_of name = None ->
  connected name s =
  (Returned false,
   Frame (self s) (outside s)
     (journal s ++ [Logged ERROR (UnknownInputSource name)])).
Proof.
  intros Hsrc. unfold connected, switch_connected. by rewrite Hsrc.
Qed.

Lemma switch_connected_total name c σ j :
  let res := connected name (Frame c σ j) in
  (exists b, res.1 = Returned b)
  /\ self res.2 = c
  /\ count is_get_monitors (journal res.2) = count is_get_monitors j.
Proof.
  destruct (input_source_of name) as [src|] eqn:Hsrc.
  - destruct c as [idx [m|]].
    + cbv zeta. rewrite (switch_connected_known m src); [|done..].
      pose proof (scoped_set_frame m src
                    {| monitor_index := idx; monitor := Some m |} σ j)
        as [Hs Hc].
      destruct (scoped_set m src _) as [[[]|[d|c d]] s1]; run_m;
        rewrite count_snoc; simpl; (split; [eauto|]); (split; [done|lia]).
    + unfold connected, switch_connected. rewrite Hsrc. run_m.
      rewrite count_snoc; simpl. split; [eauto|]. split; [done|lia].
  - cbv zeta. rewrite switch_connected_unknown by done. run_m.
    rewrite count_snoc; simpl. split; [eauto|]. split; [done|lia].
Qed.

(** A connection attempt is one [get_monitors] call and one log line;
    it never raises and keeps the index. *)
Lemma init_monitor_spec idx mon σ j :
  exists mon' lvl msg,
    _init_monitor get_monitors
      (Frame {| monitor_index := idx; monitor := mon |} σ j)
    = (Returned tt,
       Frame {| monitor_index := idx; monitor := mon' |}
         (get_monitors σ).2
         (j ++ [Called get_monitors_call; Logged lvl msg])).
Proof.
  unfold _init_monitor. run_m.
  destruct (get_monitors σ) as [[ms|e] σ1]; run_m.
  - destruct (negb _ && _); run_m.
    + destruct (py_getitem ms idx); run_m; rewrite <- ?app_assoc; eauto.
    + rewrite <- ?app_assoc; eauto.
  - rewrite <- ?app_assoc; eauto.
Qed.

(** A call without a monitor: one connection attempt, and when it
    leaves the controller without a monitor the call stops there. *)
Lemma switch_disconnected name idx σ j :
  let res := switch name (Frame {| monitor_index := idx; monitor := None |} σ j) in
  count is_get_monitors (journal res.2) = S (count is_get_monitors j)
  /\ (exists b, res.1 = Returned b)
  /\ monitor_index (self res.2) = idx
  /\ (monitor (self res.2) = None ->
      res.1 = Returned false
      /\ count is_call (journal res.2) = S (count is_call j)).
Proof.
  unfold switch, switch_input. run_m.
  destruct (init_monitor_spec idx None σ (j ++ [Logged WARNING NoMonitorConnectedReconnecting]))
    as (mon' & lvl & msg & ->). run_m.
  destruct mon' as [m|].
  - pose proof (switch_connected_total name
                  {| monitor_index := idx; monitor := Some m |}
                  (get_monitors σ).2
                  ((j ++ [Logged WARNING NoMonitorConnectedReconnecting])
                     ++ [Called get_monitors_call; Logged lvl msg]))
      as (Hb & Hs & Hc).
    fold connected. cbv zeta in *.
    destruct (connected name _) as [r s1]; run_m. subst.
    rewrite Hc, count_app, count_snoc. simpl.
    split; [unfold count; simpl; lia|]. split; [done|]. rewrite Hs. split; [done|]. done.
  - run_m. rewrite !count_app. unfold count; simpl.
    split; [lia|]. split; [eauto|]. split; [done|]. intros _. split; [done|lia].
Qed.

Lemma py_getitem_in_range {A} (l : list A) (i : Z) :
  0 <= i < Z.of_nat (length l) -> exists x, py_getitem l i = Returned x.
Proof.
  intros Hi. unfold py_getitem.
  destruct (Z.ltb_spec i 0); [lia|].
  destruct (Z.leb_spec 0 i); [|lia].
  destruct (Z.ltb_spec i (Z.of_nat (length l))); [|lia]. simpl.
  destruct (l !! Z.to_nat i) as [x|] eqn:E; [eauto|].
  apply lookup_ge_None in E. lia.
Qed.

Lemma scoped_set_healthy idx m src s :
  healthy get_monitors monitor_enter set_input_source monitor_exit idx ->
  exists s1, scoped_set m src s = (Returned tt, s1) /\ self s1 = self s.
Proof.
  intros (_ & He & Hs & Hx). unfold scoped_set, with_monitor. run_m.
  specialize (He m (outside s)).
  destruct (monitor_enter m (outside s)) as [[[]|e] σ1]; [|done]. run_m.
  specialize (Hs m src σ1).
  destruct (set_input_source m src σ1) as [[[]|e] σ2]; [|done]. run_m.
  specialize (Hx m σ2).
  destruct (monitor_exit m σ2) as [[[]|e] σ3]; [|done]. run_m. eauto.
Qed.

(** On a healthy collaborator a supported input is always switched
    to, whether or not a monitor was connected before; the controller
    then holds a monitor. *)
Lemma switch_healthy idx name src s :
  healthy get_monitors monitor_enter set_input_source monitor_exit idx ->
  input_source_of name = Some src ->
  monitor_index (self s) = idx ->
  (switch name s).1 = Returned true
  /\ monitor_index (self (switch name s).2) = idx
  /\ exists m, monitor (self (switch name s).2) = Some m.
Proof.
  intros Hh Hsrc Hidx. destruct s as [[idx' mon] σ j]. simpl in Hidx. subst idx'.
  assert (Hconn : forall m σ' j',
    let s := Frame {| monitor_index := idx; monitor := Some m |} σ' j' in
    (connected name s).1 = Returned true
    /\ self (connected name s).2 = self s).
  { intros m σ' j' s. rewrite (switch_connected_known m src) by done.
    destruct (scoped_set_healthy idx m src s Hh) as (s1 & -> & Hs1).
    by run_m. }
  unfold switch, switch_input. run_m. destruct mon as [m|].
  - destruct (Hconn m σ j) as [H1 H2]. fold connected. rewrite H1, H2. eauto.
  - unfold _init_monitor. run_m.
    destruct Hh as (Hg & Hrest). destruct (Hg σ) as (ms & Hms & Hr).
    destruct (get_monitors σ) as [r σ1]. simpl in Hms. subst r. run_m.
    destruct (Z.eqb_spec (Z.of_nat (length ms)) 0); [lia|].
    destruct (Z.gtb_spec (Z.of_nat (length ms)) idx); [|lia]. simpl.
    destruct (py_getitem_in_range ms idx Hr) as [m ->]. run_m.
    match goal with |- context [switch_connected _ _ _ name ?f] =>
      destruct (Hconn m (outside f) (journal f)) as [H1 H2] end.
    fold connected. cbv zeta in *. run_m. rewrite H1, H2. eauto.
Qed.

(** C6. Without a live monitor handle, [switch_input] makes exactly
    one connection attempt (one [get_monitors] call) and never raises;
    if the attempt leaves the controller without a monitor the call
    returns [False], and the next call again makes exactly one
    connection attempt instead of giving up. *)
Theorem switch_input_reconnects_each_call name name' idx σ j :
  let first :=
    switch_input get_monitors monitor_enter set_input_source monitor_exit
      name (Frame {| monitor_index := idx; monitor := None |} σ j) in
  count is_get_monitors (journal first.2) = S (count is_get_monitors j)
  /\ (exists b, first.1 = Returned b)
  /\ (monitor (self first.2) = None ->
      first.1 = Returned false
      /\ let second :=
           switch_input get_monitors monitor_enter set_input_source
             monitor_exit name' first.2 in
         count is_get_monitors (journal second.2)
         = S (count is_get_monitors (journal first.2))
         /\ exists b, second.1 = Returned b).
Proof.
  intros first.
  destruct (switch_disconnected name idx σ j) as (Hc & Hb & Hi & Hn).
  fold first in Hc, Hb, Hi, Hn.
  split; [done|]. split; [done|]. intros Hnone.
  split; [by apply Hn|].
  destruct first.2 as [[idx' mon'] σ' j'] eqn:E. simpl in Hnone. subst mon'.
  destruct (switch_disconnected name' idx' σ' j') as (Hc' & Hb' & _).
  done.
Qed.

(** C7. On a healthy collaborator, switching to the same supported
    input twice in a row returns [True] both times. *)
Theorem switch_input_twice_succeeds idx name src s :
  healthy get_monitors monitor_enter set_input_source monitor_exit idx ->
  input_source_of name = Some src ->
  monitor_index (self s) = idx ->
  let first :=
    switch_input get_monitors monitor_enter set_input_source monitor_exit
      name s in
  let second :=
    switch_input get_monitors monitor_enter set_input_source monitor_exit
      name first.2 in
  first.1 = Returned true /\ second.1 = Returned true.
Proof.
  intros Hh Hsrc Hidx first second.
  destruct (switch_healthy idx name src s Hh Hsrc Hidx) as (H1 & H2 & _).
  split; [done|].
  by destruct (switch_healthy idx name src first.2 Hh Hsrc H2) as (H3 & _).
Qed.

(** Every way [switch_input] can end, as a boolean. *)
Lemma switch_input_outcomes name s :
  let res :=
    switch_input get_monitors monitor_enter set_input_source monitor_exit
      name s in
  (exists b, res.1 = Returned b)
  /\ (input_source_of name = None -> res.1 = Returned false)
  /\ (forall m src,
        monitor (self s) = Some m ->
        input_source_of name = Some src ->
        match
          with_monitor monitor_enter monitor_exit m
            (invoke (set_input_source_call m src) (set_input_source m src))
            s
        with
        | (Returned _, s1) =>
            res = (Returned true,
                   Frame (self s1) (outside s1)
                     (journal s1 ++ [Logged INFO (SwitchedMonitorTo name)]))
        | (Raised (VCPError d), s1) =>
            res = (Returned false,
                   Frame (self s1) (outside s1)
                     (journal s1
                        ++ [Logged ERROR
                              (VCPErrorSwitchingInput (VCPError d))]))
        | (Raised (OtherException c d), s1) =>
            res = (Returned false,
                   Frame (self s1) (outside s1)
                     (journal s1
                        ++ [Logged ERROR
                              (ErrorSwitchingInput (OtherException c d))]))
        end).
Proof.
  intros res. subst res. destruct s as [[idx mon] σ j].
  split; [|split].
  - destruct mon as [m|].
    + unfold switch_input. run_m.
      apply (switch_connected_total name
               {| monitor_index := idx; monitor := Some m |} σ j).
    + apply (switch_disconnected name idx σ j).
  - intros Hsrc. destruct mon as [m|].
    + unfold switch_input. run_m. fold connected.
      by rewrite switch_connected_unknown.
    + unfold switch_input. run_m.
      destruct (init_monitor_spec idx None σ
                  (j ++ [Logged WARNING NoMonitorConnectedReconnecting]))
        as (mon' & lvl & msg & ->). run_m.
      destruct mon'; [|done]. fold connected.
      by rewrite switch_connected_unknown.
  - intros m src Hm Hsrc. simpl in Hm. subst mon.
    unfold switch_input. run_m. fold connected.
    rewrite (switch_connected_known m src) by done.
    unfold scoped_set.
    by destruct (with_monitor _ _ _ _ _) as [[[]|[d|c d]] s1].
Qed.
(** The whole result of [switch_input], from the state in which the
    command is issued: the state given when it holds a monitor, the
    state after the reconnection attempt otherwise. *)
Lemma switch_input_from_ready name s :
  let res :=
    switch_input get_monitors monitor_enter set_input_source monitor_exit
      name s in
  let ready :=
    match monitor (self s) with
    | Some _ => s
    | None =>
        ((log WARNING NoMonitorConnectedReconnecting ;;
          _init_monitor get_monitors) s).2
    end in
  match monitor (self ready), input_source_of name with
  | None, _ => res = (Returned false, ready)
  | Some m, None =>
      res = (Returned false,
             Frame (self ready) (outside ready)
               (journal ready ++ [Logged ERROR (UnknownInputSource name)]))
  | Some m, Some src =>
      match
        with_monitor monitor_enter monitor_exit m
          (invoke (set_input_source_call m src) (set_input_source m src))
          ready
      with
      | (Returned _, s1) =>
          res = (Returned true,
                 Frame (self s1) (outside s1)
                   (journal s1 ++ [Logged INFO (SwitchedMonitorTo name)]))
      | (Raised (VCPError d), s1) =>
          res = (Returned false,
                 Frame (self s1) (outside s1)
                   (journal s1
                      ++ [Logged ERROR
                            (VCPErrorSwitchingInput (VCPError d))]))
      | (Raised (OtherException c d), s1) =>
          res = (Returned false,
                 Frame (self s1) (outside s1)
                   (journal s1
                      ++ [Logged ERROR
                            (ErrorSwitchingInput (OtherException c d))]))
      end
  end.
Proof.
  intros res. subst res. destruct s as [[idx mon] σ j].
  destruct mon as [m0|]; cbv zeta.
  - cbn [monitor self]. unfold switch_input. run_m. fold connected.
    destruct (input_source_of name) as [src|] eqn:Hsrc.
    + rewrite (switch_connected_known m0 src) by done. unfold scoped_set.
      by destruct (with_monitor _ _ _ _ _) as [[[]|[d|c d]] s1].
    + by rewrite switch_connected_unknown.
  - cbn [monitor self]. unfold switch_input. run_m.
    destruct (init_monitor_spec idx None σ
                (j ++ [Logged WARNING NoMonitorConnectedReconnecting]))
      as (mon' & lvl & msg & ->). run_m.
    destruct mon' as [m|]; [|by destruct (input_source_of name)].
    fold connected.
    destruct (input_source_of name) as [src|] eqn:Hsrc.
    + rewrite (switch_connected_known m src) by done. unfold scoped_set.
      by destruct (with_monitor _ _ _ _ _) as [[[]|[d|c d]] s1].
    + by rewrite switch_connected_unknown.
Qed.
End ControllerFacts.

(** ** The detector *)

Section DetectorFacts.
Context {Σ : Type}.
Variable GetSystemMetrics : external Σ Z.
Variable GetKeyState : vkey -> external Σ Z.
Variable callback : machine -> external Σ unit.

Let sample := _count_input_devices (Σ:=Σ) GetSystemMetrics GetKeyState.
Let feed_cb := feed (Σ:=Σ) callback.
Let tick_cb := tick GetSystemMetrics GetKeyState callback.

(** What one fed score does, case by case. *)
Lemma feed_spec d σ j c :
  feed_cb c (Frame d σ j) =
  if Z.abs (c - last_device_count d) >=? 1 then
    let cand := if c >? last_device_count d then Home else Work in
    if negb (machine_eqb cand (last_state d)) then
      match callback cand σ with
      | (Returned _, σ') =>
          (Returned tt,
           Frame {| last_device_count := c; last_state := cand |} σ'
             (j ++ [Logged INFO (KMSwitchDetected (last_state d) cand);
                    Called (callback_call cand); Slept 2]))
      | (Raised e, σ') =>
          (Returned tt,
           Frame {| last_device_count := last_device_count d;
                    last_state := cand |} σ'
             (j ++ [Logged INFO (KMSwitchDetected (last_state d) cand);
                    Called (callback_call cand);
                    Logged ERROR (ErrorInMonitorLoop e); Slept 5]))
      end
    else
      (Returned tt,
       Frame {| last_device_count := c; last_state := last_state d |} σ
         (j ++ [Slept 2]))
  else (Returned tt, Frame d σ (j ++ [Slept 2])).
Proof.
  unfold feed_cb, feed, tick_with, on_count. run_m.
  destruct (Z.abs _ >=? 1); run_m; [|done].
  destruct (negb _); run_m; [|done].
  destruct (callback _ σ) as [[[]|e] σ']; run_m; by rewrite <- ?app_assoc.
Qed.

(** The sampler: total, silent towards the callback, and with the
    value the two probes decide. *)
Lemma count_input_devices_spec d σ j :
  let res := sample (Frame d σ j) in
  self res.2 = d
  /\ events (journal res.2) = events j
  /\ sleeps (journal res.2) = sleeps j
  /\ match GetSystemMetrics σ with
     | (Raised e, σ1) =>
         res = (Returned 0,
                Frame d σ1
                  (j ++ [Called GetSystemMetrics_call;
                         Logged ERROR (ErrorCountingDevices e)]))
     | (Returned buttons, σ1) =>
         res.1 = Returned (if keyboard_answers GetKeyState σ1
                           then buttons + 2 else buttons)
         /\ count is_logged (journal res.2) = count is_logged j
     end.
Proof.
  unfold sample, _count_input_devices, keyboard_answers. run_m.
  destruct (GetSystemMetrics σ) as [[b|e] σ1]; run_m.
  2:{ rewrite <- !app_assoc, !events_app, !sleeps_app. simpl.
      by rewrite !app_nil_r. }
  simpl for_each. run_m.
  destruct (GetKeyState VK_SHIFT σ1) as [[k1|e1] σ2]; run_m.
  2:{ rewrite !events_app, !sleeps_app, !count_snoc. simpl.
      rewrite !app_nil_r. repeat split; try done; lia. }
  destruct (GetKeyState VK_CONTROL σ2) as [[k2|e2] σ3]; run_m.
  2:{ rewrite !events_app, !sleeps_app, !count_snoc. simpl.
      rewrite !app_nil_r. repeat split; try done; lia. }
  destruct (GetKeyState VK_MENU σ3) as [[k3|e3] σ4]; run_m;
    rewrite !events_app, !sleeps_app, !count_snoc; simpl;
    rewrite !app_nil_r; repeat split; try done; lia.
Qed.

Lemma count_input_devices_total s :
  exists c s1,
    sample s = (Returned c, s1)
    /\ self s1 = self s
    /\ events (journal s1) = events (journal s)
    /\ sleeps (journal s1) = sleeps (journal s).
Proof.
  destruct s as [d σ j].
  destruct (count_input_devices_spec d σ j) as (Hs & He & Hz & Hv).
  cbv zeta in *. destruct (sample _) as [r s1] eqn:E. simpl in *.
  destruct (GetSystemMetrics σ) as [[b|e] σ1].
  - destruct Hv as [-> _]. eauto 10.
  - injection Hv as -> ->. eauto 10.
Qed.

(** An iteration of the loop is the sampler followed by [feed]. *)
Lemma tick_feed s c s1 :
  sample s = (Returned c, s1) -> tick_cb s = feed_cb c s1.
Proof.
  intros E. unfold tick_cb, tick, feed_cb, feed, tick_with. run_m.
  fold sample. by rewrite E.
Qed.

Lemma candidate_spec last c :
  (if c >? last then Home else Work) = spec_candidate last c.
Proof.
  unfold spec_candidate. destruct (Z.gtb_spec c last); case_bool_decide; done || lia.
Qed.

Lemma machine_eqb_eq a b : machine_eqb a b = true <-> a = b.
Proof. destruct a, b; simpl; split; congruence. Qed.

Lemma machine_eqb_neq a b : machine_eqb a b = false <-> a <> b.
Proof. destruct a, b; simpl; split; congruence. Qed.

(** The transition rule of one fed score. *)
Lemma feed_transition d σ j c :
  let after := (feed_cb c (Frame d σ j)).2 in
  let candidate := spec_candidate (last_device_count d) c in
  (Z.abs (c - last_device_count d) >= 1 ->
     last_state (self after) = candidate
     /\ (candidate <> last_state d ->
         events (journal after) = events j ++ [candidate])
     /\ (candidate = last_state d ->
         events (journal after) = events j))
  /\ (c - last_device_count d = 0 ->
      self after = d /\ events (journal after) = events j).
Proof.
  cbv zeta. rewrite feed_spec. cbv zeta. rewrite candidate_spec.
  set (cand := spec_candidate _ _).
  destruct (Z.geb_spec (Z.abs (c - last_device_count d)) 1) as [Hge|Hlt].
  - split; [intros _|lia].
    destruct (machine_eqb cand (last_state d)) eqn:Heq; simpl.
    + apply machine_eqb_eq in Heq. rewrite events_app. simpl.
      rewrite app_nil_r. by rewrite Heq.
    + apply machine_eqb_neq in Heq.
      destruct (callback cand σ) as [[[]|e] σ']; simpl;
        rewrite events_app; simpl; done.
  - split; [lia|intros _]. simpl. rewrite events_app. simpl.
    by rewrite app_nil_r.
Qed.

(** C1. For an iteration of the loop that reads the count [c]: when
    [|c - last_device_count| >= 1] the tracked state becomes the
    candidate (Home if [c > last_device_count], else Work) and the
    callback receives the candidate exactly when it differs from the
    state tracked before; when the difference is 0 the detector is
    unchanged and the callback is not called. *)
Theorem tick_transition_rule s c s1 :
  _count_input_devices GetSystemMetrics GetKeyState s = (Returned c, s1) ->
  let d := self s in
  let after := (tick GetSystemMetrics GetKeyState callback s).2 in
  let candidate := spec_candidate (last_device_count d) c in
  (Z.abs (c - last_device_count d) >= 1 ->
     last_state (self after) = candidate
     /\ (candidate <> last_state d ->
         events (journal after) = events (journal s) ++ [candidate])
     /\ (candidate = last_state d ->
         events (journal after) = events (journal s)))
  /\ (c - last_device_count d = 0 ->
      self after = d /\ events (journal after) = events (journal s)).
Proof.
  intros E. fold sample in E. fold tick_cb.
  destruct (count_input_devices_total s) as (c' & s1' & E' & Hs & He & _).
  rewrite E in E'. injection E' as <- <-.
  rewrite (tick_feed s c s1 E). destruct s1 as [d1 σ1 j1]. simpl in *.
  subst d1. rewrite <- He. apply feed_transition.
Qed.

(** One fed score: at most one event, which differs from the tracked
    state, becomes the tracked state, and needs a score other than
    the previous one. *)
Lemma feed_step previous d σ j c :
  follows previous d ->
  let after := (feed_cb c (Frame d σ j)).2 in
  follows c (self after)
  /\ ((events (journal after) = events j
       /\ last_state (self after) = last_state d)
      \/ (exists m,
            events (journal after) = events j ++ [m]
            /\ m <> last_state d
            /\ last_state (self after) = m
            /\ c <> previous)).
Proof.
  intros Hf. cbv zeta. rewrite feed_spec. cbv zeta. unfold follows in *.
  destruct (Z.geb_spec (Z.abs (c - last_device_count d)) 1) as [Hge|Hlt].
  - destruct (Z.gtb_spec c (last_device_count d)) as [Hgt|Hle];
      destruct (last_state d) eqn:Hst; simpl.
    + rewrite events_app; simpl. rewrite app_nil_r. split; [by left|].
      left. done.
    + assert (c <> previous) by (destruct Hf as [?|[[? ?]|[? ?]]]; done || lia).
      destruct (callback Home σ) as [[[]|e] σ']; simpl;
        rewrite events_app; simpl.
      * split; [by left|]. right. by exists Home.
      * split; [right; right; split; [done|lia]|]. right. by exists Home.
    + assert (c <> previous) by (destruct Hf as [?|[[? ?]|[? ?]]]; done || lia).
      destruct (callback Work σ) as [[[]|e] σ']; simpl;
        rewrite events_app; simpl.
      * split; [by left|]. right. by exists Work.
      * split; [right; left; split; [done|lia]|]. right. by exists Work.
    + rewrite events_app; simpl. rewrite app_nil_r. split; [by left|].
      left. done.
  - simpl. rewrite events_app; simpl. rewrite app_nil_r.
    split; [|by left].
    left. lia.
Qed.

Lemma feed_all_events previous scores : forall d σ j,
  follows previous d ->
  let after := (for_each scores feed_cb (Frame d σ j)).2 in
  exists evs,
    events (journal after) = events j ++ evs
    /\ alternating (last_state d) evs = true
    /\ (length evs <= transitions previous scores)%nat.
Proof.
  revert previous.
  induction scores as [|c rest IH]; intros previous d σ j Hf; cbv zeta.
  - exists []. simpl. rewrite app_nil_r. split; [done|]. split; [done|lia].
  - simpl for_each. unfold bind at 1.
    destruct (feed_step previous d σ j c Hf) as [Hf' Hev].
    cbv zeta in Hf', Hev.
    assert (Hret : (feed_cb c (Frame d σ j)).1 = Returned tt).
    { rewrite feed_spec. cbv zeta.
      destruct (_ >=? _); [|done]. destruct (negb _); [|done].
      by destruct (callback _ σ) as [[[]|e] σ']. }
    destruct (feed_cb c (Frame d σ j)) as [r [d1 σ1 j1]]. simpl in *.
    subst r.
    destruct (IH c d1 σ1 j1 Hf') as (evs & He & Ha & Hl). cbv zeta in He.
    destruct Hev as [[Hev Hst]|(m & Hev & Hne & Hst & Hc)].
    + exists evs. rewrite He, Hev. split; [done|]. rewrite <- Hst.
      split; [done|]. destruct (c =? previous); lia.
    + exists (m :: evs). rewrite He, Hev, <- app_assoc. split; [done|].
      simpl. rewrite <- Hst in *.
      apply machine_eqb_neq in Hne. rewrite Hne. simpl.
      split; [done|].
      destruct (Z.eqb_spec c previous); [done|]. simpl in Hl. lia.
Qed.

Lemma repeat_tick_events n : forall s,
  exists evs,
    events (journal (repeat_m n tick_cb s).2) = events (journal s) ++ evs
    /\ alternating (last_state (self s)) evs = true.
Proof.
  induction n as [|n IH]; intros s; simpl.
  - exists []. unfold ret. simpl. by rewrite app_nil_r.
  - unfold bind.
    destruct (count_input_devices_total s) as (c & s1 & E & Hs & He & _).
    rewrite (tick_feed s c s1 E). destruct s1 as [d1 σ1 j1]. simpl in *.
    assert (Hf : follows (last_device_count d1) d1) by by left.
    destruct (feed_step _ d1 σ1 j1 c Hf) as [_ Hev]. cbv zeta in Hev.
    assert (Hret : (feed_cb c (Frame d1 σ1 j1)).1 = Returned tt).
    { rewrite feed_spec. cbv zeta.
      destruct (_ >=? _); [|done]. destruct (negb _); [|done].
      by destruct (callback _ σ1) as [[[]|e] σ']. }
    destruct (feed_cb c (Frame d1 σ1 j1)) as [r s2]. simpl in *. subst r.
    destruct (IH s2) as (evs & Hevs & Ha). rewrite Hevs, <- He, <- Hs.
    destruct Hev as [[Hev Hst]|(m & Hev & Hne & Hst & _)]; rewrite Hev.
    + exists evs. split; [done|]. by rewrite <- Hst.
    + exists (m :: evs). rewrite <- app_assoc. split; [done|]. simpl.
      apply machine_eqb_neq in Hne. rewrite Hne. simpl. by rewrite <- Hst.
Qed.

(** C2. For every sequence of scores fed to the detector: each
    iteration calls the callback at most once, with the candidate, and
    only when the candidate differs from the tracked state; a score
    fed twice in a row is silent the second time; over the whole
    sequence no event repeats the one before it (nor, for the first,
    the state the run starts in), and there are at most as many
    events as presence-count transitions.  The events of the loop
    itself, on the counts it reads, alternate in the same way. *)
Theorem events_only_on_state_change d σ j :
  (forall c,
     let after := (feed callback c (Frame d σ j)).2 in
     let candidate := spec_candidate (last_device_count d) c in
     events (journal after) = events j
     \/ (events (journal after) = events j ++ [candidate]
         /\ candidate <> last_state d
         /\ c <> last_device_count d))
  /\ (forall c,
        let once := (feed callback c (Frame d σ j)).2 in
        events (journal (feed callback c once).2) = events (journal once))
  /\ (forall scores,
        let after := (for_each scores (feed callback) (Frame d σ j)).2 in
        exists evs,
          events (journal after) = events j ++ evs
          /\ alternating (last_state d) evs = true
          /\ (length evs
              <= transitions (last_device_count d) scores)%nat)
  /\ (forall n,
        let after :=
          (_monitor_loop GetSystemMetrics GetKeyState callback n
             (Frame d σ j)).2 in
        exists evs,
          events (journal after) = events j ++ evs
          /\ alternating (last_state d) evs = true).
Proof.
  fold feed_cb. split; [|split; [|split]].
  - intros c. cbv zeta.
    destruct (feed_transition d σ j c) as [Hchg Hsame]. cbv zeta in *.
    destruct (Z.eq_dec (c - last_device_count d) 0) as [H0|Hne].
    + left. by apply Hsame.
    + destruct Hchg as (_ & Hdiff & Heq); [lia|].
      destruct (decide (spec_candidate (last_device_count d) c
                        = last_state d)) as [He|He].
      * left. by apply Heq.
      * right. split; [by apply Hdiff|]. split; [done|lia].
  - intros c. cbv zeta.
    assert (Hf : follows (last_device_count d) d) by by left.
    destruct (feed_step _ d σ j c Hf) as [Hf' _]. cbv zeta in Hf'.
    destruct (feed_cb c (Frame d σ j)) as [r [d1 σ1 j1]]. simpl in *.
    destruct (feed_step c d1 σ1 j1 c Hf') as [_ [[He _]|(m & _ & _ & _ & Hc)]];
      done.
  - intros scores. apply feed_all_events. by left.
  - intros n. cbv zeta. unfold _monitor_loop. fold sample tick_cb.
    unfold bind.
    destruct (count_input_devices_total (Frame d σ j))
      as (c & s1 & E & Hs & He & _).
    rewrite E. run_m.
    match goal with |- context [repeat_m n tick_cb ?f] =>
      destruct (repeat_tick_events n f) as (evs & Hevs & Ha) end.
    simpl in *. exists evs. rewrite Hevs, He. by rewrite Hs in Ha.
Qed.

(** C3. From the initial state (Home), the first score being the
    initial count: [5;5;5] gives no event; [5;4] gives [Work];
    [4;5] from Work gives [Home]; [5;4;4;5] gives [Work; Home], the
    repeated 4 giving nothing; [5;4;3] gives [Work] once, on the
    first decrease, and ends in Work.  This holds whatever the
    callback does. *)
Theorem score_scenarios σ :
  let run scores d :=
    (run_scores callback scores (Frame d σ [])).2 in
  let at_work := {| last_device_count := 0; last_state := Work |} in
  events (journal (run [5; 5; 5] KMSwitchDetector_init)) = []
  /\ events (journal (run [5; 4] KMSwitchDetector_init)) = [Work]
  /\ events (journal (run [4; 5] at_work)) = [Home]
  /\ events (journal (run [5; 4; 4] KMSwitchDetector_init)) = [Work]
  /\ events (journal (run [5; 4; 4; 5] KMSwitchDetector_init))
     = [Work; Home]
  /\ events (journal (run [5; 4] KMSwitchDetector_init))
     = events (journal (run [5; 4; 3] KMSwitchDetector_init))
  /\ events (journal (run [5; 4; 3] KMSwitchDetector_init)) = [Work]
  /\ last_state (self (run [5; 4; 3] KMSwitchDetector_init)) = Work.
Proof.
  cbv zeta. repeat split; vm_compute;
    repeat match goal with
           | |- context [callback ?m ?x] =>
               destruct (callback m x) as [[[]|?] ?]; vm_compute
           end;
    reflexivity.
Qed.

(** The sleep an iteration ends with. *)
Lemma feed_sleeps d σ j c :
  let res := feed_cb c (Frame d σ j) in
  res.1 = Returned tt
  /\ sleeps (journal res.2)
     = sleeps j ++ [if callback_raises callback d c σ then (5 : Q) else (2 : Q)]
  /\ (callback_raises callback d c σ = true ->
      exists e j',
        journal res.2 = j' ++ [Logged ERROR (ErrorInMonitorLoop e); Slept 5]).
Proof.
  cbv zeta. rewrite feed_spec. unfold callback_raises. cbv zeta.
  destruct (Z.abs _ >=? 1); simpl.
  2:{ rewrite sleeps_app. done. }
  destruct (negb (machine_eqb _ _)); simpl.
  2:{ rewrite sleeps_app. done. }
  destruct (callback _ σ) as [[[]|e] σ']; simpl; rewrite sleeps_app; simpl.
  - done.
  - split; [done|]. split; [done|]. intros _.
    exists e, (j ++ [Logged INFO
                       (KMSwitchDetected (last_state d)
                          (if c >? last_device_count d then Home else Work));
                     Called (callback_call
                          (if c >? last_device_count d then Home else Work))]).
    by rewrite <- app_assoc.
Qed.

Lemma tick_total s :
  (tick_cb s).1 = Returned tt
  /\ length (sleeps (journal (tick_cb s).2))
     = S (length (sleeps (journal s))).
Proof.
  destruct (count_input_devices_total s) as (c & s1 & E & _ & _ & Hz).
  rewrite (tick_feed s c s1 E). destruct s1 as [d1 σ1 j1].
  destruct (feed_sleeps d1 σ1 j1 c) as (Hr & Hs & _). cbv zeta in *.
  rewrite Hr, Hs, length_app. simpl in *. rewrite Hz. split; [done|lia].
Qed.

Lemma repeat_tick_total n : forall s,
  (repeat_m n tick_cb s).1 = Returned tt
  /\ length (sleeps (journal (repeat_m n tick_cb s).2))
     = (length (sleeps (journal s)) + n)%nat.
Proof.
  induction n as [|n IH]; intros s; simpl.
  - unfold ret. simpl. split; [done|lia].
  - unfold bind. destruct (tick_total s) as [Hr Hl].
    destruct (tick_cb s) as [r s1]. simpl in *. subst r.
    destruct (IH s1) as [Hr' Hl']. rewrite Hr', Hl', Hl. split; [done|lia].
Qed.

(** C4 (amended). An iteration never lets an exception out of the
    loop; it ends with a 5-second sleep exactly when it failed (the
    callback raised), the error being logged, and with the 2-second
    sleep otherwise, whatever happened in earlier iterations; a loop
    of [n] iterations runs all [n] of them. *)
Theorem loop_backs_off_after_each_failure :
  (forall s c s1,
     _count_input_devices GetSystemMetrics GetKeyState s
     = (Returned c, s1) ->
     let res := tick GetSystemMetrics GetKeyState callback s in
     let failed := callback_raises callback (self s) c (outside s1) in
     res.1 = Returned tt
     /\ sleeps (journal res.2)
        = sleeps (journal s) ++ [if failed then (5 : Q) else (2 : Q)]
     /\ (failed = true ->
         exists e j',
           journal res.2
           = j' ++ [Logged ERROR (ErrorInMonitorLoop e); Slept 5]))
  /\ (forall n s,
        let res :=
          _monitor_loop GetSystemMetrics GetKeyState callback n s in
        res.1 = Returned tt
        /\ length (sleeps (journal res.2))
           = (length (sleeps (journal s)) + n)%nat).
Proof.
  split.
  - intros s c s1 E. fold sample in E. fold tick_cb. cbv zeta.
    destruct (count_input_devices_total s) as (c' & s1' & E' & Hs & _ & Hz).
    rewrite E in E'. injection E' as <- <-.
    rewrite (tick_feed s c s1 E). destruct s1 as [d1 σ1 j1]. simpl in *.
    subst d1. rewrite <- Hz. apply feed_sleeps.
  - intros n s. cbv zeta. unfold _monitor_loop. fold sample tick_cb.
    unfold bind.
    destruct (count_input_devices_total s) as (c & s1 & E & _ & _ & Hz).
    rewrite E. run_m.
    match goal with |- context [repeat_m n tick_cb ?f] =>
      destruct (repeat_tick_total n f) as [Hr Hl] end.
    rewrite Hr, Hl. simpl. by rewrite Hz.
Qed.

(** The count is stored whenever the iteration does not fail. *)
Lemma feed_stores_count d σ j c :
  callback_raises callback d c σ = false ->
  last_device_count (self (feed_cb c (Frame d σ j)).2) = c.
Proof.
  rewrite feed_spec. unfold callback_raises. cbv zeta.
  destruct (Z.geb_spec (Z.abs (c - last_device_count d)) 1); simpl.
  2:{ intros _. lia. }
  destruct (negb (machine_eqb _ _)); simpl; [|done].
  by destruct (callback _ σ) as [[[]|e] σ'].
Qed.

(** C5 (amended). [_count_input_devices] never raises and leaves the
    detector alone.  When [GetSystemMetrics] fails it returns 0 and
    logs the error.  When [GetSystemMetrics] returns [buttons], a
    failing [GetKeyState] is swallowed without a log line and the
    result is [buttons]; it is [buttons + 2] when the three keyboard
    queries answer. *)
Theorem count_input_devices_never_raises d σ j :
  let res :=
    _count_input_devices GetSystemMetrics GetKeyState (Frame d σ j) in
  (exists n, res.1 = Returned n)
  /\ self res.2 = d
  /\ (forall e, (GetSystemMetrics σ).1 = Raised e ->
        res.1 = Returned 0
        /\ journal res.2
           = j ++ [Called GetSystemMetrics_call;
                   Logged ERROR (ErrorCountingDevices e)])
  /\ (forall buttons, (GetSystemMetrics σ).1 = Returned buttons ->
        res.1 = Returned
                  (if keyboard_answers GetKeyState (GetSystemMetrics σ).2
                   then buttons + 2 else buttons)
        /\ count is_logged (journal res.2) = count is_logged j).
Proof.
  fold sample.
  destruct (count_input_devices_spec d σ j) as (Hs & _ & _ & Hv).
  cbv zeta in *.
  destruct (GetSystemMetrics σ) as [[b|e] σ1]; simpl.
  - destruct Hv as [Hv Hl]. split; [eauto|]. split; [done|].
    split; [done|]. intros ? [= <-]. done.
  - rewrite Hv. simpl. split; [eauto|]. split; [done|].
    split; [|done]. intros ? [= <-]. done.
Qed.
End DetectorFacts.

(** ** The application *)

Section AppFacts.
Context {Σ : Type}.
Variable get_monitors : external Σ (list Monitor).
Variable monitor_enter : Monitor -> external Σ unit.
Variable set_input_source : Monitor -> source_code -> external Σ unit.
Variable monitor_exit : Monitor -> external Σ unit.
Variable json_dump : string -> gmap string value -> external Σ unit.
Variable notify : Icon -> notification -> external Σ unit.

Let switch :=
  switch_input get_monitors monitor_enter set_input_source monitor_exit.

(** The controller writes no configuration. *)
Lemma switch_input_writes_nothing name s :
  count is_json_dump (journal (switch name s).2)
  = count is_json_dump (journal s).
Proof.
  destruct s as [[idx mon] σ j].
  unfold switch, switch_input, switch_connected, _init_monitor, with_monitor.
  run_m.
  repeat match goal with
         | |- context [get_monitors ?x] =>
             destruct (get_monitors x) as [[?|?] ?]; run_m
         | |- context [monitor_enter ?m ?x] =>
             destruct (monitor_enter m x) as [[[]|[]] ?]; run_m
         | |- context [set_input_source ?m ?c ?x] =>
             destruct (set_input_source m c x) as [[[]|[]] ?]; run_m
         | |- context [monitor_exit ?m ?x] =>
             destruct (monitor_exit m x) as [[[]|[]] ?]; run_m
         | |- context [py_getitem ?l ?i] =>
             destruct (py_getitem l i); run_m
         | |- context [input_source_of ?n] =>
             destruct (input_source_of n); run_m
         | |- context [if ?x then _ else _] => destruct x; run_m
         | |- context [match ?x with Some _ => _ | None => _ end] =>
             is_var x; destruct x; run_m
         end;
    rewrite ?count_snoc; simpl; lia.
Qed.

Let on_km_switch :=
  _on_km_switch get_monitors monitor_enter set_input_source monitor_exit
    json_dump notify.

(** The call [_on_km_switch] makes to the controller. *)
Let attempt (m : machine) (a : MonitorSwitcherApp) (σ : Σ)
    (j : list effect) :=
  switch (configured_input m (config a))
    (Frame (monitor_controller a) σ
       (j ++ [Logged INFO (SwitchingToMachine m)])).

(** [_on_km_switch] in terms of that call. *)
Lemma on_km_switch_spec m cfg ctrl ic σ j :
  let a := {| config := cfg; monitor_controller := ctrl; icon := ic |} in
  let input_name := configured_input m cfg in
  let s1 := (attempt m a σ j).2 in
  let app c :=
    {| config := c; monitor_controller := self s1; icon := ic |} in
  (on_km_switch m (Frame a σ j)).2 =
  match (attempt m a σ j).1 with
  | Returned true =>
      let c1 :=
        {| config_file := config_file cfg;
           data := <["last_active_machine" := VStr (machine_str m)]>
                     (data cfg) |} in
      let '(r, σ2) :=
        json_dump (config_file c1) (data c1) (outside s1) in
      let j3 :=
        journal s1
          ++ [Called (json_dump_call (config_file c1) (data c1));
              match r with
              | Returned _ => Logged INFO ConfigurationSaved
              | Raised e => Logged ERROR (ErrorSavingConfig e)
              end] in
      match ic with
      | Some i =>
          Frame (app c1) (notify i (SwitchedNote m input_name) σ2).2
            (j3 ++ [Called (notify_call (SwitchedNote m input_name))])
      | None => Frame (app c1) σ2 j3
      end
  | Returned false =>
      match ic with
      | Some i =>
          Frame (app cfg)
            (notify i (FailedNote input_name) (outside s1)).2
            (journal s1 ++ [Called (notify_call (FailedNote input_name))])
      | None => Frame (app cfg) (outside s1) (journal s1)
      end
  | Raised e => Frame (app cfg) (outside s1) (journal s1)
  end.
Proof.
  cbv zeta.
  unfold on_km_switch, attempt, switch, configured_input, _on_km_switch,
    Config_set, Config_save, Config_get, with_config, with_controller.
  destruct m; run_m; simpl;
    match goal with |- context [switch_input _ _ _ _ ?n ?f] =>
      destruct (switch_input get_monitors monitor_enter set_input_source
                  monitor_exit n f) as [[[]|e] [c1 σ1 j1]] end;
    run_m; try done;
    destruct ic as [i|]; run_m;
    try (destruct (json_dump _ _ σ1) as [[[]|e] σ2]; run_m);
    try match goal with |- context [notify ?i ?n ?x] =>
          destruct (notify i n x) as [? ?] end;
    by rewrite <- ?app_assoc.
Qed.

(** C8. [switch_input] never raises: it returns a boolean.  An input
    outside [INPUT_SOURCES] gives [False]; with a monitor and a
    supported input, a [VCPError] and any other exception of the
    scoped command both give [False] and differ in the log line only,
    and a command that goes through gives [True], the log line naming
    the input.  The same holds when the call has to reconnect first:
    from the state the reconnection attempt leaves, no monitor gives
    [False], an unknown input gives [False], and the scoped command
    decides the result as above, so that the result is fixed in every
    case.  In [_on_km_switch] the boolean travels with the
    input name it was obtained for: with a tray icon, the last thing
    done is the notification, of success or of failure, carrying
    that name. *)
Theorem switch_input_absorbs_failures name s :
  let res :=
    switch_input get_monitors monitor_enter set_input_source monitor_exit
      name s in
  (exists b, res.1 = Returned b)
  /\ (input_source_of name = None -> res.1 = Returned false)
  /\ (forall m src,
        monitor (self s) = Some m ->
        input_source_of name = Some src ->
        match
          with_monitor monitor_enter monitor_exit m
            (invoke (set_input_source_call m src) (set_input_source m src))
            s
        with
        | (Returned _, s1) =>
            res = (Returned true,
                   Frame (self s1) (outside s1)
                     (journal s1 ++ [Logged INFO (SwitchedMonitorTo name)]))
        | (Raised (VCPError d), s1) =>
            res = (Returned false,
                   Frame (self s1) (outside s1)
                     (journal s1
                        ++ [Logged ERROR
                              (VCPErrorSwitchingInput (VCPError d))]))
        | (Raised (OtherException c d), s1) =>
            res = (Returned false,
                   Frame (self s1) (outside s1)
                     (journal s1
                        ++ [Logged ERROR
                              (ErrorSwitchingInput (OtherException c d))]))
        end)
  /\ (let ready :=
        match monitor (self s) with
        | Some _ => s
        | None =>
            ((log WARNING NoMonitorConnectedReconnecting ;;
              _init_monitor get_monitors) s).2
        end in
      match monitor (self ready), input_source_of name with
      | None, _ => res = (Returned false, ready)
      | Some m, None =>
          res = (Returned false,
                 Frame (self ready) (outside ready)
                   (journal ready ++ [Logged ERROR (UnknownInputSource name)]))
      | Some m, Some src =>
          match
            with_monitor monitor_enter monitor_exit m
              (invoke (set_input_source_call m src) (set_input_source m src))
              ready
          with
          | (Returned _, s1) =>
              res = (Returned true,
                     Frame (self s1) (outside s1)
                       (journal s1 ++ [Logged INFO (SwitchedMonitorTo name)]))
          | (Raised (VCPError d), s1) =>
              res = (Returned false,
                     Frame (self s1) (outside s1)
                       (journal s1
                          ++ [Logged ERROR
                                (VCPErrorSwitchingInput (VCPError d))]))
          | (Raised (OtherException c d), s1) =>
              res = (Returned false,
                     Frame (self s1) (outside s1)
                       (journal s1
                          ++ [Logged ERROR
                                (ErrorSwitchingInput (OtherException c d))]))
          end
      end)
  /\ (forall mch a i σ j,
        icon a = Some i ->
        let input_name := configured_input mch (config a) in
        let tried :=
          switch_input get_monitors monitor_enter set_input_source
            monitor_exit input_name
            (Frame (monitor_controller a) σ
               (j ++ [Logged INFO (SwitchingToMachine mch)])) in
        let after :=
          (_on_km_switch get_monitors monitor_enter set_input_source
             monitor_exit json_dump notify mch (Frame a σ j)).2 in
        (tried.1 = Returned true ->
           exists j',
             journal after
             = j' ++ [Called (notify_call (SwitchedNote mch input_name))])
        /\ (tried.1 = Returned false ->
            journal after
            = journal tried.2
                ++ [Called (notify_call (FailedNote input_name))])).
Proof.
  intros res.
  destruct (switch_input_outcomes get_monitors monitor_enter
              set_input_source monitor_exit name s) as (H1 & H2 & H3).
  split; [done|]. split; [done|]. split; [done|].
  split; [exact (switch_input_from_ready get_monitors monitor_enter
                   set_input_source monitor_exit name s)|].
  clear H1 H2 H3 res.
  intros mch [cfg ctrl ic] i σ j Hi. simpl in Hi. subst ic. cbv zeta.
  pose proof (on_km_switch_spec mch cfg ctrl (Some i) σ j) as Hs.
  cbv zeta in Hs. unfold on_km_switch, attempt, switch in Hs. simpl in Hs.
  rewrite Hs. clear Hs.
  destruct (switch_input _ _ _ _ _ _) as [[[]|e] s1]; simpl;
    (split; [intros [=]|intros [=]]).
  - destruct (json_dump _ _ (outside s1)) as [r σ2]. simpl. eauto.
  - done.
Qed.

(** C10. [_on_km_switch] asks the controller for the input the
    configuration names for the machine.  When that attempt returns
    [False], the configuration object is unchanged and nothing is
    written to the configuration file; [last_active_machine] is set,
    and the file written once, when the attempt returns [True]. *)
Theorem failed_switch_keeps_config m a σ j :
  let tried :=
    switch_input get_monitors monitor_enter set_input_source monitor_exit
      (configured_input m (config a))
      (Frame (monitor_controller a) σ
         (j ++ [Logged INFO (SwitchingToMachine m)])) in
  let after :=
    (_on_km_switch get_monitors monitor_enter set_input_source monitor_exit
       json_dump notify m (Frame a σ j)).2 in
  (tried.1 = Returned false ->
     config (self after) = config a
     /\ count is_json_dump (journal after) = count is_json_dump j)
  /\ (tried.1 = Returned true ->
      data (config (self after))
      = <["last_active_machine" := VStr (machine_str m)]> (data (config a))
      /\ count is_json_dump (journal after) = S (count is_json_dump j)).
Proof.
  destruct a as [cfg ctrl ic]. cbv zeta. simpl.
  pose proof (switch_input_writes_nothing (configured_input m cfg)
                (Frame ctrl σ (j ++ [Logged INFO (SwitchingToMachine m)])))
    as Hw.
  pose proof (on_km_switch_spec m cfg ctrl ic σ j) as Hs.
  cbv zeta in Hs. unfold on_km_switch, attempt, switch in Hs, Hw.
  simpl in Hs, Hw. rewrite count_snoc in Hw. simpl in Hw.
  rewrite Hs. clear Hs.
  destruct (switch_input _ _ _ _ _ _) as [r [c1 σ1 j1]]. simpl in *.
  split; intros ->.
  - destruct ic; simpl; rewrite ?count_snoc; simpl; (split; [done|lia]).
  - destruct (json_dump _ _ σ1) as [r σ2].
    destruct ic; simpl; rewrite ?count_snoc, count_app; unfold count at 2;
      simpl; destruct r; simpl; (split; [done|lia]).
Qed.
End AppFacts.

(** ** Worked scenarios *)

(** A desk whose mouse reports three buttons and whose keyboard
    answers: the presence score is 5. *)
Example score_with_keyboard :
  (_count_input_devices (always 3) (fun _ => always 0)
     (Frame KMSwitchDetector_init tt [])).1 = Returned 5.
Proof. reflexivity. Qed.

(** The real loop on scripted button counts 3, 2, 2, 3 (scores 5, 4,
    4, 5): the callback sees Work, then Home. *)
Example monitor_loop_on_script :
  events (journal
            (_monitor_loop (scripted (Returned 0)) (fun _ => always 0)
               (fun _ => always tt) 3
               (Frame KMSwitchDetector_init
                  [Returned 3; Returned 2; Returned 2; Returned 3] [])).2)
  = [Work; Home].
Proof. reflexivity. Qed.

Lemma tick_transition_rule_witness :
  let s := Frame {| last_device_count := 7; last_state := Home |} tt [] in
  let after := (tick (always 3) (fun _ => always 0) (fun _ => always tt) s).2 in
  last_state (self after) = Work /\ events (journal after) = [Work].
Proof.
  intros s after.
  destruct (tick_transition_rule (always 3) (fun _ => always 0)
              (fun _ => always tt) s 5 _ eq_refl) as [H _].
  destruct H as (H1 & H2 & _); [vm_compute; discriminate|].
  split; [exact H1|]. apply H2. vm_compute. discriminate.
Defined.

Lemma loop_backs_off_after_each_failure_witness :
  let s := Frame {| last_device_count := 7; last_state := Home |} tt [] in
  sleeps (journal (tick (always 3) (fun _ => always 0)
                     (fun _ => failing os_error) s).2) = [5 : Q].
Proof.
  intros s.
  destruct (loop_backs_off_after_each_failure (Σ:=unit) (always 3)
              (fun _ => always 0) (fun _ => failing os_error)) as [H _].
  destruct (H s 5 _ eq_refl) as (_ & H2 & _). exact H2.
Defined.

(** C4, as claimed, fails: the very first failure of a run is followed
    by the 5-second sleep, where the rule of the claim keeps the default
    interval until the third consecutive failure. *)
Lemma backoff_on_first_failure :
  let s := Frame {| last_device_count := 7; last_state := Home |} tt [] in
  let after :=
    (tick (always 3) (fun _ => always 0) (fun _ => failing os_error) s).2 in
  sleeps (journal after) = [5 : Q]
  /\ sleeps (journal after) <> [spec_interval 1].
Proof. split; [reflexivity|]. vm_compute. discriminate. Qed.

Lemma count_input_devices_never_raises_witness :
  (_count_input_devices (failing os_error) (fun _ => always 0)
     (Frame KMSwitchDetector_init tt [])).1 = Returned 0.
Proof.
  destruct (count_input_devices_never_raises (failing os_error)
              (fun _ => always 0) KMSwitchDetector_init tt [])
    as (_ & _ & H & _).
  exact (proj1 (H os_error eq_refl)).
Defined.

(** C5, as claimed, fails: with five mouse buttons and a failing
    [GetKeyState] the sampler returns 5, not 0, and logs nothing. *)
Lemma keyboard_failure_is_not_zero :
  let res :=
    _count_input_devices (always 5) (fun _ => failing os_error)
      (Frame KMSwitchDetector_init tt []) in
  res.1 = Returned 5
  /\ res.1 <> Returned 0
  /\ count is_logged (journal res.2) = 0%nat.
Proof. split; [reflexivity|]. split; [vm_compute; discriminate|reflexivity]. Qed.

(** C9: the code at the failing input.  The detector holds count 5 in
    state Home, the next count is 4 and the callback raises: the state
    is already Work, but the stored count is still 5. *)
Lemma failed_callback_keeps_old_count :
  let s := Frame {| last_device_count := 5; last_state := Home |} tt [] in
  let after := (feed (fun _ => failing os_error) 4 s).2 in
  last_device_count (self after) = 5
  /\ last_state (self after) = Work
  /\ events (journal after) = [Work].
Proof. repeat split; reflexivity. Qed.

(** What the stale count costs: on scores 5, 4, 5 with a callback that
    raises, the return to 5 is compared with the stale 5 and nothing is
    emitted; with a callback that returns, Home follows Work. *)
Example stale_count_loses_a_transition :
  events (journal
            (run_scores (fun _ => failing os_error) [5; 4; 5]
               (Frame KMSwitchDetector_init tt [])).2) = [Work]
  /\ events (journal
               (run_scores (fun _ => always tt) [5; 4; 5]
                  (Frame KMSwitchDetector_init tt [])).2) = [Work; Home].
Proof. split; reflexivity. Qed.

Lemma switch_input_reconnects_each_call_witness :
  let first :=
    switch_input (failing os_error) (fun _ => always tt)
      (fun _ _ => always tt) (fun _ => always tt) (VStr "HDMI-1")
      (Frame {| monitor_index := 0; monitor := None |} tt []) in
  first.1 = Returned false
  /\ count is_get_monitors
       (journal
          (switch_input (failing os_error) (fun _ => always tt)
             (fun _ _ => always tt) (fun _ => always tt) (VStr "HDMI-1")
             first.2).2) = 2%nat.
Proof.
  intros first.
  destruct (switch_input_reconnects_each_call (failing os_error)
              (fun _ => always tt) (fun _ _ => always tt)
              (fun _ => always tt) (VStr "HDMI-1") (VStr "HDMI-1") 0 tt [])
    as (H1 & _ & H3).
  destruct (H3 eq_refl) as (H4 & H5 & _).
  split; [exact H4|]. fold first in H1, H5. rewrite H5, H1. reflexivity.
Defined.

(** A failed connection is not remembered: the script fails once, then
    offers a monitor, and the second call switches. *)
Example reconnect_succeeds_on_next_call :
  let first :=
    switch_input (scripted (Raised os_error)) (fun _ => always tt)
      (fun _ _ => always tt) (fun _ => always tt) (VStr "HDMI-2")
      (Frame {| monitor_index := 0; monitor := None |}
         [Raised os_error; Returned [7%nat]] []) in
  first.1 = Returned false
  /\ (switch_input (scripted (Raised os_error)) (fun _ => always tt)
        (fun _ _ => always tt) (fun _ => always tt) (VStr "HDMI-2")
        first.2).1 = Returned true.
Proof. split; reflexivity. Qed.

Lemma healthy_bus :
  healthy (Σ:=unit) (always [7%nat]) (fun _ => always tt)
    (fun _ _ => always tt) (fun _ => always tt) 0.
Proof.
  split; [|by repeat split].
  intros σ. exists [7%nat]. split; [reflexivity|]. simpl. lia.
Defined.

Lemma switch_input_twice_succeeds_witness :
  let first :=
    switch_input (always [7%nat]) (fun _ => always tt)
      (fun _ _ => always tt) (fun _ => always tt) (VStr "HDMI-1")
      (Frame {| monitor_index := 0; monitor := None |} tt []) in
  first.1 = Returned true
  /\ (switch_input (always [7%nat]) (fun _ => always tt)
        (fun _ _ => always tt) (fun _ => always tt) (VStr "HDMI-1")
        first.2).1 = Returned true.
Proof.
  exact (switch_input_twice_succeeds (always [7%nat]) (fun _ => always tt)
           (fun _ _ => always tt) (fun _ => always tt) 0 (VStr "HDMI-1")
           (Member HDMI1)
           (Frame {| monitor_index := 0; monitor := None |} tt [])
           healthy_bus eq_refl eq_refl).
Defined.

Lemma switch_input_absorbs_failures_witness :
  (switch_input (always [7%nat]) (fun _ => always tt)
     (fun _ _ => failing (VCPError "rejected")) (fun _ => always tt)
     (VStr "HDMI-1")
     (Frame {| monitor_index := 0; monitor := Some 7%nat |} tt [])).1
  = Returned false
  /\ (switch_input (always [7%nat]) (fun _ => always tt)
        (fun _ _ => always tt) (fun _ => always tt)
        (VStr "SCART")
        (Frame {| monitor_index := 0; monitor := Some 7%nat |} tt [])).1
     = Returned false
  /\ (switch_input (always [7%nat]) (fun _ => always tt)
        (fun _ _ => failing (VCPError "rejected")) (fun _ => always tt)
        (VStr "HDMI-1")
        (Frame {| monitor_index := 0; monitor := None |} tt [])).1
     = Returned false
  /\ exists j',
       journal
         (_on_km_switch (always [7%nat]) (fun _ => always tt)
            (fun _ _ => always tt) (fun _ => always tt)
            (fun _ _ => always tt) (fun _ _ => always tt) Work
            (Frame
               {| config := {| config_file := "config.json";
                               data := default_data |};
                  monitor_controller :=
                    {| monitor_index := 0; monitor := None |};
                  icon := Some 1%nat |} tt [])).2
       = j' ++ [Called (notify_call (SwitchedNote Work (VStr "HDMI-2")))].
Proof.
  split; [|split; [|split]].
  - destruct (switch_input_absorbs_failures (always [7%nat])
                (fun _ => always tt)
                (fun _ _ => failing (VCPError "rejected"))
                (fun _ => always tt) (fun _ _ => always tt)
                (fun _ _ => always tt) (VStr "HDMI-1")
                (Frame {| monitor_index := 0; monitor := Some 7%nat |} tt []))
      as (_ & _ & H & _).
    specialize (H 7%nat (Member HDMI1) eq_refl eq_refl). simpl in H.
    exact (f_equal fst H).
  - destruct (switch_input_absorbs_failures (always [7%nat])
                (fun _ => always tt) (fun _ _ => always tt)
                (fun _ => always tt) (fun _ _ => always tt)
                (fun _ _ => always tt) (VStr "SCART")
                (Frame {| monitor_index := 0; monitor := Some 7%nat |} tt []))
      as (_ & H & _).
    exact (H eq_refl).
  - destruct (switch_input_absorbs_failures (always [7%nat])
                (fun _ => always tt)
                (fun _ _ => failing (VCPError "rejected"))
                (fun _ => always tt) (fun _ _ => always tt)
                (fun _ _ => always tt) (VStr "HDMI-1")
                (Frame {| monitor_index := 0; monitor := None |} tt []))
      as (_ & _ & _ & H & _).
    exact (f_equal fst H).
  - destruct (switch_input_absorbs_failures (always [7%nat])
                (fun _ => always tt) (fun _ _ => always tt)
                (fun _ => always tt) (fun _ _ => always tt)
                (fun _ _ => always tt) (VStr "HDMI-1")
                (Frame {| monitor_index := 0; monitor := None |} tt []))
      as (_ & _ & _ & _ & H).
    exact (proj1 (H Work
                    {| config := {| config_file := "config.json";
                                    data := default_data |};
                       monitor_controller :=
                         {| monitor_index := 0; monitor := None |};
                       icon := Some 1%nat |} 1%nat tt [] eq_refl) eq_refl).
Defined.

Lemma failed_switch_keeps_config_witness :
  let a :=
    {| config := {| config_file := "config.json"; data := default_data |};
       monitor_controller := {| monitor_index := 0; monitor := None |};
       icon := Some 1%nat |} in
  let after :=
    (_on_km_switch (failing os_error) (fun _ => always tt)
       (fun _ _ => always tt) (fun _ => always tt)
       (fun _ _ => always tt) (fun _ _ => always tt) Work
       (Frame a tt [])).2 in
  config (self after) = config a
  /\ count is_json_dump (journal after) = 0%nat.
Proof.
  intros a after.
  destruct (failed_switch_keeps_config (failing os_error)
              (fun _ => always tt) (fun _ _ => always tt)
              (fun _ => always tt) (fun _ _ => always tt)
              (fun _ _ => always tt) Work a tt []) as [H _].
  exact (H eq_refl).
Defined.

(** The application end to end: the mouse reports 3 buttons, then 2
    (scores 5, then 4).  The detector calls back with Work, the monitor
    is connected and set to HDMI-2, and the configuration records the
    work machine. *)
Example app_switches_to_work :
  let app :=
    {| config := {| config_file := "config.json"; data := default_data |};
       monitor_controller := {| monitor_index := 0; monitor := None |};
       icon := None |} in
  let final :=
    (app_monitor_loop (scripted (Returned 0)) (fun _ => always 0)
       (always [7%nat]) (fun _ => always tt) (fun _ _ => always tt)
       (fun _ => always tt) (fun _ _ => always tt) (fun _ _ => always tt) 1
       (Frame KMSwitchDetector_init
          (Frame app [Returned 3; Returned 2] []) [])).2 in
  last_state (self final) = Work
  /\ events (journal final) = [Work]
  /\ data (config (self (outside final))) !! "last_active_machine"
     = Some (VStr "work")
  /\ List.filter is_call (journal (outside final))
     = [Called get_monitors_call;
        Called (monitor_enter_call 7%nat);
        Called (set_input_source_call 7%nat (Member HDMI2));
        Called (monitor_exit_call 7%nat);
        Called (json_dump_call "config.json"
                  (<["last_active_machine" := VStr "work"]> default_data))].
Proof. repeat split; vm_compute; reflexivity. Qed.

(** ** The rest of the controller *)

Lemma INPUT_SOURCES_items_table :
  list_to_map INPUT_SOURCES_items = INPUT_SOURCES.
Proof. reflexivity. Qed.

Lemma INPUT_SOURCES_items_lookup name src :
  (name, src) ∈ INPUT_SOURCES_items <-> INPUT_SOURCES !! name = Some src.
Proof.
  rewrite <- INPUT_SOURCES_items_table. apply elem_of_list_to_map.
  by apply (bool_decide_unpack (NoDup (INPUT_SOURCES_items.*1))).
Qed.

Lemma matching_name_cons {R} (equals : source_code -> R -> bool)
    name source rest current :
  matching_name equals ((name, source) :: rest) current
  = if equals source current then Some name
    else matching_name equals rest current.
Proof. reflexivity. Qed.

(** The loop: a name it finds stands in the items with an equal source,
    and it finds none exactly when no source of the items is equal. *)
Lemma matching_name_Some {R} (equals : source_code -> R -> bool)
    items current name :
  matching_name equals items current = Some name ->
  exists src, (name, src) ∈ items /\ equals src current = true.
Proof.
  induction items as [|[n s] items IH]; [done|].
  rewrite matching_name_cons. destruct (equals s current) eqn:E.
  - intros [= <-]. exists s. split; [left|done].
  - intros H. destruct (IH H) as (src & Hin & Heq).
    exists src. split; [by right|done].
Qed.

Lemma matching_name_None {R} (equals : source_code -> R -> bool)
    items current :
  matching_name equals items current = None
  <-> forall name src, (name, src) ∈ items -> equals src current = false.
Proof.
  induction items as [|[n s] items IH].
  - split; [|done]. intros _ name src H. by apply elem_of_nil in H.
  - rewrite matching_name_cons. destruct (equals s current) eqn:E.
    + split; [done|]. intros H. specialize (H n s (proj2 (elem_of_cons _ _ _) (or_introl eq_refl))).
      congruence.
    + rewrite IH. split.
      * intros H name src [[= -> ->]|Hin]%elem_of_cons; [done|by eapply H].
      * intros H name src Hin. apply (H name src). by right.
Qed.

Ltac run_more :=
  repeat (run_m; unfold perform, log_more in *).

Section ControllerRestFacts.
Context {Σ R : Type}.
Variable get_monitors : external Σ (list Monitor).
Variable monitor_enter : Monitor -> external Σ unit.
Variable get_input_source : Monitor -> external Σ R.
Variable source_equals : source_code -> R -> bool.
Variable monitor_exit : Monitor -> external Σ unit.
Variable logger : level -> more_message -> Σ -> Σ.

(** X1. [_init_monitor] never raises and keeps the index.  The monitor
    becomes [monitors[index]] for an index in range, counted from the
    end when negative; when [get_monitors] raises, the list is too
    short or the index lies below [-len], the monitor held before is
    kept.  The constructor, which starts without a monitor, never
    raises either. *)
Theorem init_monitor_outcome idx mon σ j :
  let res :=
    _init_monitor get_monitors
      (Frame {| monitor_index := idx; monitor := mon |} σ j) in
  res.1 = Returned tt
  /\ monitor_index (self res.2) = idx
  /\ (forall e, (get_monitors σ).1 = Raised e -> monitor (self res.2) = mon)
  /\ (forall ms, (get_monitors σ).1 = Returned ms ->
        let n := Z.of_nat (length ms) in
        (0 <= idx < n -> monitor (self res.2) = ms !! Z.to_nat idx)
        /\ (- n <= idx < 0 ->
            monitor (self res.2) = ms !! Z.to_nat (idx + n))
        /\ (n <= idx \/ idx < - n -> monitor (self res.2) = mon))
  /\ (forall O (s : frame Σ O),
        exists c,
          (MonitorController_new get_monitors idx s).1 = Returned c
          /\ monitor_index c = idx
          /\ self (MonitorController_new get_monitors idx s).2 = self s).
Proof.
  assert (Hcore : forall mon σ j,
    let res :=
      _init_monitor get_monitors
        (Frame {| monitor_index := idx; monitor := mon |} σ j) in
    res.1 = Returned tt
    /\ monitor_index (self res.2) = idx
    /\ (forall e, (get_monitors σ).1 = Raised e -> monitor (self res.2) = mon)
    /\ (forall ms, (get_monitors σ).1 = Returned ms ->
          let n := Z.of_nat (length ms) in
          (0 <= idx < n -> monitor (self res.2) = ms !! Z.to_nat idx)
          /\ (- n <= idx < 0 ->
              monitor (self res.2) = ms !! Z.to_nat (idx + n))
          /\ (n <= idx \/ idx < - n -> monitor (self res.2) = mon))).
  { clear mon σ j. intros mon σ j. cbv zeta.
    unfold _init_monitor, py_getitem. run_m.
    destruct (get_monitors σ) as [[ms|e] σ1]; run_m.
    2:{ split_and!; [done|done|done|intros ? [=]]. }
    destruct (Z.eqb_spec (Z.of_nat (length ms)) 0) as [H0|H0];
      destruct (Z.gtb_spec (Z.of_nat (length ms)) idx) as [Hgt|Hle];
      simpl; run_m;
      try (split_and!; [done|done|intros ? [=]|intros ? [= <-]; cbv zeta;
                        split_and!; intros; done || lia]).
    destruct (Z.ltb_spec idx 0) as [Hneg|Hpos].
    - destruct (Z.leb_spec 0 (idx + Z.of_nat (length ms))) as [Hlo|Hlo];
        (destruct (Z.ltb_spec (idx + Z.of_nat (length ms))
                     (Z.of_nat (length ms))) as [Hhi|Hhi]; [|lia]);
        simpl; run_m.
      + destruct (ms !! Z.to_nat (idx + Z.of_nat (length ms))) as [x|] eqn:E;
          run_m; [|apply lookup_ge_None in E; lia].
        split_and!; [done|done|intros ? [=]|intros ? [= <-]; cbv zeta].
        split_and!; intros; [lia|by rewrite E|lia].
      + split_and!; [done|done|intros ? [=]|intros ? [= <-]; cbv zeta].
        split_and!; intros; [lia|lia|done].
    - destruct (Z.leb_spec 0 idx); [|lia].
      destruct (Z.ltb_spec idx (Z.of_nat (length ms))); [|lia]. simpl.
      destruct (ms !! Z.to_nat idx) as [x|] eqn:E; run_m;
        [|apply lookup_ge_None in E; lia].
      split_and!; [done|done|intros ? [=]|intros ? [= <-]; cbv zeta].
      split_and!; intros; [by rewrite E|lia|lia]. }
  destruct (Hcore mon σ j) as (H1 & H2 & H3 & H4).
  split_and!; [done|done|done|exact H4|].
  intros O s. unfold MonitorController_new.
  destruct (Hcore None (outside s) (journal s)) as (H1' & H2' & _).
  cbv zeta in *.
  destruct (_init_monitor get_monitors
              (Frame {| monitor_index := idx; monitor := None |}
                 (outside s) (journal s))) as [r t].
  simpl in *. subst r. eauto.
Qed.

(** X2. [get_current_input] never raises and leaves the controller as
    it is.  Without a monitor it answers [None] and touches nothing.
    It answers a name exactly when the monitor was entered, read and
    left without an exception and that name is the first of
    [INPUT_SOURCES.items()] whose source is equal ([source == current],
    as the library defines it) to the value read.  So a name answered
    is a key of [INPUT_SOURCES] whose source equals the value read;
    after a read that went through the answer is [None] exactly when no
    source of the table equals it, and when the sources equal to it
    all stand under one name, that name is the answer.  In every other
    case (an exception anywhere) the answer is [None]. *)
Theorem get_current_input_answer c σ j :
  let res :=
    get_current_input monitor_enter get_input_source source_equals
      monitor_exit logger (Frame c σ j) in
  (exists answer, res.1 = Returned answer)
  /\ self res.2 = c
  /\ (monitor c = None -> res = (Returned None, Frame c σ j))
  /\ (forall name,
        res.1 = Returned (Some name)
        <-> exists m σ1 current σ2,
              monitor c = Some m
              /\ monitor_enter m σ = (Returned tt, σ1)
              /\ get_input_source m σ1 = (Returned current, σ2)
              /\ returned (monitor_exit m σ2).1 = true
              /\ matching_name source_equals INPUT_SOURCES_items current
                 = Some name)
  /\ (forall m σ1 current σ2,
        monitor c = Some m ->
        monitor_enter m σ = (Returned tt, σ1) ->
        get_input_source m σ1 = (Returned current, σ2) ->
        returned (monitor_exit m σ2).1 = true ->
        (forall name, res.1 = Returned (Some name) ->
           exists src, INPUT_SOURCES !! name = Some src
                       /\ source_equals src current = true)
        /\ (res.1 = Returned None
            <-> forall name src, INPUT_SOURCES !! name = Some src ->
                  source_equals src current = false)
        /\ (forall name src,
              INPUT_SOURCES !! name = Some src ->
              source_equals src current = true ->
              (forall name' src', INPUT_SOURCES !! name' = Some src' ->
                 source_equals src' current = true -> name' = name) ->
              res.1 = Returned (Some name))).
Proof.
  cbv zeta. destruct c as [idx [m|]]; unfold get_current_input; run_more.
  2:{ split_and!; [eauto|done|done| |done].
      intros name. split; [done|]. by intros (? & ? & ? & ? & [=] & _). }
  unfold with_monitor. run_more.
  destruct (monitor_enter m σ) as [[[]|e1] σ1] eqn:E1; run_more.
  2:{ split_and!; [eauto|done|done| |].
      - intros name. split; [done|].
        intros (? & ? & ? & ? & [= <-] & He & _). by rewrite E1 in He.
      - intros ? ? ? ? [= <-] He. by rewrite E1 in He. }
  destruct (get_input_source m σ1) as [[rd|e2] σ2] eqn:E2; run_more;
    destruct (monitor_exit m σ2) as [[[]|e3] σ3] eqn:E3; run_more;
    (split_and!; [eauto|done|done| |]);
    try (intros name; split; [done|];
         intros (? & ? & ? & ? & [= <-] & He & Hg & Hx & _);
         rewrite E1 in He; simplify_eq;
         rewrite E2 in Hg; simplify_eq;
         rewrite E3 in Hx; done);
    try (intros ? ? ? ? [= <-] He Hg Hx;
         rewrite E1 in He; simplify_eq;
         rewrite E2 in Hg; simplify_eq;
         rewrite E3 in Hx; done).
  - intros name. split.
    + intros [= H]. exists m, σ1, rd, σ2. by rewrite E3.
    + intros (? & ? & ? & ? & [= <-] & He & Hg & _ & Hl).
      rewrite E1 in He. simplify_eq. rewrite E2 in Hg. simplify_eq.
      by rewrite Hl.
  - intros ? ? ? ? [= <-] He Hg _.
    rewrite E1 in He. simplify_eq. rewrite E2 in Hg. simplify_eq.
    split_and!.
    + intros name [= H]. apply matching_name_Some in H as (src & Hin & Heq).
      exists src. split; [by apply INPUT_SOURCES_items_lookup|done].
    + split.
      * intros [= H] name src Hl.
        eapply matching_name_None; [exact H|].
        by apply INPUT_SOURCES_items_lookup.
      * intros H. f_equal. apply matching_name_None.
        intros name src Hin. apply (H name).
        by apply INPUT_SOURCES_items_lookup.
    + intros name src Hl Heq Huniq.
      destruct (matching_name source_equals INPUT_SOURCES_items current)
        as [found|] eqn:Ef.
      * apply matching_name_Some in Ef as (src' & Hin & Heq').
        apply INPUT_SOURCES_items_lookup in Hin.
        by rewrite (Huniq found src' Hin Heq').
      * exfalso.
        assert (source_equals src current = false); [|congruence].
        eapply matching_name_None; [exact Ef|].
        by apply INPUT_SOURCES_items_lookup.
Qed.
End ControllerRestFacts.

(** ** The rest of the configuration *)

Section ConfigFacts.
Context {Σ : Type}.
Variable path_exists : string -> external Σ bool.
Variable json_load : string -> external Σ (gmap string value).
Variable json_dump : string -> gmap string value -> external Σ unit.
Variable logger : level -> more_message -> Σ -> Σ.

(** [Config.set], step by step. *)
Lemma Config_set_spec key v c σ j :
  Config_set json_dump key v (Frame c σ j) =
  let c' := {| config_file := config_file c;
               data := <[key := v]> (data c) |} in
  let dumped := json_dump (config_file c) (data c') σ in
  (Returned tt,
   Frame c' dumped.2
     (j ++ [Called (json_dump_call (config_file c) (data c'));
            match dumped.1 with
            | Returned _ => Logged INFO ConfigurationSaved
            | Raised e => Logged ERROR (ErrorSavingConfig e)
            end])).
Proof.
  unfold Config_set, Config_save. run_m.
  destruct (json_dump _ _ σ) as [[[]|e] σ1]; run_m; by rewrite <- app_assoc.
Qed.

Lemma Config_set_effect key v c σ j :
  let res := Config_set json_dump key v (Frame c σ j) in
  res.1 = Returned tt
  /\ self res.2 = {| config_file := config_file c;
                     data := <[key := v]> (data c) |}
  /\ count is_json_dump (journal res.2) = S (count is_json_dump j).
Proof.
  cbv zeta. rewrite Config_set_spec. cbv zeta. simpl.
  split_and!; try done.
  rewrite count_app. unfold count at 2. simpl.
  destruct (json_dump _ _ σ).1; simpl; lia.
Qed.

(** X3. [_load_config] gives the default configuration when the file
    does not exist (nothing is read or logged) and when reading it
    raises (the error is logged); a file that loads is taken as it is,
    without the defaults for the keys it lacks.  An exception of
    [Path.exists] itself is not caught. *)
Theorem load_config_outcome {O} file (s : frame Σ O) :
  let res := _load_config path_exists json_load logger file s in
  (forall σ1,
     path_exists file (outside s) = (Returned false, σ1) ->
     res = (Returned default_data, Frame (self s) σ1 (journal s)))
  /\ (forall σ1 d σ2,
        path_exists file (outside s) = (Returned true, σ1) ->
        json_load file σ1 = (Returned d, σ2) ->
        res = (Returned d, Frame (self s) σ2 (journal s)))
  /\ (forall σ1 e σ2,
        path_exists file (outside s) = (Returned true, σ1) ->
        json_load file σ1 = (Raised e, σ2) ->
        res = (Returned default_data,
               Frame (self s)
                 (logger ERROR (ErrorLoadingConfig e) σ2) (journal s)))
  /\ (forall e σ1,
        path_exists file (outside s) = (Raised e, σ1) ->
        res = (Raised e, Frame (self s) σ1 (journal s)))
  /\ (forall σ1 d σ2 key default,
        path_exists file (outside s) = (Returned true, σ1) ->
        json_load file σ1 = (Returned d, σ2) ->
        d !! key = None ->
        exists c,
          (Config_new path_exists json_load logger file s).1 = Returned c
          /\ (Config_get (Σ:=Σ) key default (Frame c σ2 [])).1
             = Returned default).
Proof.
  cbv zeta. unfold Config_new, _load_config. run_more.
  split_and!.
  - intros σ1 E. rewrite E. by run_more.
  - intros σ1 d σ2 E1 E2. rewrite E1. run_more. rewrite E2. by run_more.
  - intros σ1 e σ2 E1 E2. rewrite E1. run_more. rewrite E2. by run_more.
  - intros e σ1 E. rewrite E. by run_more.
  - intros σ1 d σ2 key default E1 E2 Hk. rewrite E1. run_more. rewrite E2.
    run_more. eexists. split; [done|]. unfold Config_get. run_m.
    by rewrite Hk.
Qed.

(** X4. [Config.set] never raises, even when the file cannot be
    written.  Afterwards [get] of the key gives the value set, every
    other key reads as before, and the whole updated dictionary was
    dumped exactly once to the configuration file; a failed dump is
    logged and leaves the new value in memory. *)
Theorem config_set_then_get key v c σ j :
  let res := Config_set json_dump key v (Frame c σ j) in
  res.1 = Returned tt
  /\ config_file (self res.2) = config_file c
  /\ (forall default,
        (Config_get key default res.2).1 = Returned v)
  /\ (forall key' default,
        key' <> key ->
        (Config_get key' default res.2).1
        = (Config_get (Σ:=Σ) key' default (Frame c σ j)).1)
  /\ count is_json_dump (journal res.2) = S (count is_json_dump j)
  /\ In (Called (json_dump_call (config_file c) (<[key := v]> (data c))))
        (journal res.2)
  /\ (forall e,
        (json_dump (config_file c) (<[key := v]> (data c)) σ).1 = Raised e ->
        data (self res.2) !! key = Some v
        /\ In (Logged ERROR (ErrorSavingConfig e)) (journal res.2)).
Proof.
  cbv zeta. rewrite Config_set_spec. cbv zeta. simpl.
  split_and!; try done.
  - intros default. unfold Config_get. run_m. by rewrite lookup_insert_eq.
  - intros key' default Hne. unfold Config_get. run_m.
    by rewrite lookup_insert_ne.
  - rewrite count_app. unfold count at 2. simpl.
    destruct (json_dump _ _ σ).1; simpl; lia.
  - apply in_or_app. right. by left.
  - intros e He. rewrite He. split; [by rewrite lookup_insert_eq|].
    apply in_or_app. right. right. by left.
Qed.
End ConfigFacts.

(** ** The configuration window *)

Section ConfigWindowFacts.
Context {Σ : Type}.
Variable json_dump : string -> gmap string value -> external Σ unit.
Variable home_input_get : external Σ string.
Variable work_input_get : external Σ string.
Variable monitor_index_get : external Σ string.
Variable int : string -> outcome Z.
Variable status_label_config : external Σ unit.
Variable on_save_callback : option (external Σ unit).
Variable root_after : external Σ unit.

(** X5. [ConfigWindow._save] writes the configuration entry by entry.
    With the widgets holding [home], [work] and [text]: when [int(text)]
    raises, the exception leaves [_save], the two input names are
    already set and dumped (two dumps), [monitor_index] is not
    changed, and the on-save callback has no part in the result; when
    [int(text)] is [n], the three entries are set, with three dumps,
    and no other key is changed. *)
Theorem save_writes_entry_by_entry c σ j home work text :
  (forall σ, (home_input_get σ).1 = Returned home) ->
  (forall σ, (work_input_get σ).1 = Returned work) ->
  (forall σ, (monitor_index_get σ).1 = Returned text) ->
  let res :=
    _save json_dump home_input_get work_input_get monitor_index_get int
      status_label_config on_save_callback root_after (Frame c σ j) in
  let names :=
    <["work_laptop_input" := VStr work]>
      (<["home_machine_input" := VStr home]> (data c)) in
  (forall e, int text = Raised e ->
     res.1 = Raised e
     /\ data (self res.2) = names
     /\ count is_json_dump (journal res.2) = (count is_json_dump j + 2)%nat
     /\ res = _save json_dump home_input_get work_input_get
                monitor_index_get int status_label_config None root_after
                (Frame c σ j))
  /\ (forall n, int text = Returned n ->
        data (self res.2) = <["monitor_index" := VInt n]> names
        /\ count is_json_dump (journal res.2)
           = (count is_json_dump j + 3)%nat
        /\ forall key,
             key <> "home_machine_input" -> key <> "work_laptop_input" ->
             key <> "monitor_index" ->
             data (self res.2) !! key = data c !! key).
Proof.
  intros Hh Hw Ht. cbv zeta.
  assert (Hsteps : forall cb,
    _save json_dump home_input_get work_input_get monitor_index_get int
      status_label_config cb root_after (Frame c σ j) =
    let σ1 := (home_input_get σ).2 in
    let r1 := Config_set json_dump "home_machine_input" (VStr home)
                (Frame c σ1 j) in
    let σ2 := (work_input_get (outside r1.2)).2 in
    let r2 := Config_set json_dump "work_laptop_input" (VStr work)
                (Frame (self r1.2) σ2 (journal r1.2)) in
    let σ3 := (monitor_index_get (outside r2.2)).2 in
    let s3 := Frame (self r2.2) σ3 (journal r2.2) in
    match int text with
    | Raised e => (Raised e, s3)
    | Returned n =>
        let r3 := Config_set json_dump "monitor_index" (VInt n) s3 in
        (perform status_label_config ;;
         match cb with
         | Some callback => perform callback
         | None => ret tt
         end ;;
         perform root_after) r3.2
    end).
  { intros cb. cbv zeta. rewrite !Config_set_spec. cbv zeta.
    unfold _save. run_more.
    specialize (Hh σ). destruct (home_input_get σ) as [r σ1].
    simpl in Hh. subst r. run_more.
    rewrite Config_set_spec. cbv zeta. run_more.
    match goal with |- context [work_input_get ?x] =>
      specialize (Hw x); destruct (work_input_get x) as [r σ2] end.
    simpl in Hw. subst r. run_more.
    match goal with |- context [Config_set ?d ?k ?v (Frame ?a ?b ?jj)] =>
      rewrite (Config_set_spec d k v a b jj) end.
    cbv zeta. run_more.
    match goal with |- context [monitor_index_get ?x] =>
      specialize (Ht x); destruct (monitor_index_get x) as [r σ3] end.
    simpl in Ht. subst r. run_more.
    destruct (int text) as [n|e]; run_more; [|done].
    match goal with |- context [Config_set ?d ?k ?v (Frame ?a ?b ?jj)] =>
      rewrite (Config_set_spec d k v a b jj) end.
    cbv zeta. by run_more. }
  pose proof (Config_set_effect json_dump "home_machine_input" (VStr home)
                c (home_input_get σ).2 j) as (_ & B1 & C1).
  cbv zeta in B1, C1. rewrite !Hsteps. cbv zeta. clear Hsteps.
  destruct (Config_set json_dump "home_machine_input" _ _)
    as [x1 [c1 o1 j1]].
  simpl in *. subst c1.
  match goal with
  | |- context [Config_set _ "work_laptop_input" _ (Frame ?a ?b ?jj)] =>
    pose proof (Config_set_effect json_dump "work_laptop_input" (VStr work)
                  a b jj) as (_ & B2 & C2) end.
  cbv zeta in B2, C2.
  destruct (Config_set json_dump "work_laptop_input" _ _)
    as [x2 [c2 o2 j2]].
  simpl in *. subst c2.
  split.
  - intros e He. rewrite He. simpl. split_and!; try done. lia.
  - intros n Hn. rewrite Hn.
    match goal with
    | |- context [Config_set _ "monitor_index" _ (Frame ?a ?b ?jj)] =>
      pose proof (Config_set_effect json_dump "monitor_index" (VInt n)
                    a b jj) as (_ & B3 & C3) end.
    cbv zeta in B3, C3.
    destruct (Config_set json_dump "monitor_index" _ _) as [x3 [c3 o3 j3]].
    simpl in *. subst c3.
    assert (Hrest : forall (s : frame Σ Config),
      let t := ((perform status_label_config ;;
                 match on_save_callback with
                 | Some callback => perform callback
                 | None => ret tt
                 end ;;
                 perform root_after) s).2 in
      self t = self s /\ journal t = journal s).
    { intros s. run_more.
      destruct (status_label_config (outside s)) as [[[]|?] ?]; run_more;
        [|done].
      destruct on_save_callback as [cb|]; run_more.
      - match goal with |- context [cb ?x] =>
          destruct (cb x) as [[[]|?] ?] end; run_more; [|done].
        match goal with |- context [root_after ?x] =>
          destruct (root_after x) as [? ?] end. done.
      - match goal with |- context [root_after ?x] =>
          destruct (root_after x) as [? ?] end. done. }
    match goal with |- context [bind _ _ ?f] =>
      destruct (Hrest f) as [Hself Hj] end.
    cbv zeta in Hself, Hj. rewrite Hself, Hj. simpl.
    split_and!; [done|lia|].
    intros key H1 H2 H3. by rewrite !lookup_insert_ne.
Qed.
End ConfigWindowFacts.

(** ** The rest of the loop *)

Section LoopRestFacts.
Context {Σ : Type}.
Variable GetSystemMetrics : external Σ Z.
Variable GetKeyState : vkey -> external Σ Z.
Variable callback : machine -> external Σ unit.

Lemma tick_one_event s :
  let t := tick GetSystemMetrics GetKeyState callback s in
  t.1 = Returned tt
  /\ exists evs,
       events (journal t.2) = events (journal s) ++ evs
       /\ (length evs <= 1)%nat.
Proof.
  cbv zeta.
  destruct (count_input_devices_total GetSystemMetrics GetKeyState s)
    as (c & s1 & E & _ & He & _).
  rewrite (tick_feed GetSystemMetrics GetKeyState callback s c s1 E).
  destruct s1 as [d1 σ1 j1]. simpl in He. rewrite <- He.
  rewrite feed_spec. cbv zeta.
  destruct (_ >=? _);
    [destruct (negb _); [destruct (callback _ σ1) as [[[]|e] σ']|]|];
    simpl; rewrite events_app; simpl; (split; [done|]); eexists;
    (split; [reflexivity|simpl; lia]).
Qed.

Lemma repeat_tick_bound n : forall s,
  exists evs,
    events (journal
              (repeat_m n (tick GetSystemMetrics GetKeyState callback) s).2)
    = events (journal s) ++ evs
    /\ (length evs <= n)%nat.
Proof.
  induction n as [|n IH]; intros s; simpl.
  - exists []. unfold ret. simpl. rewrite app_nil_r. split; [done|lia].
  - unfold bind. destruct (tick_one_event s) as (Hr & ev & Hev & Hl).
    cbv zeta in *.
    destruct (tick GetSystemMetrics GetKeyState callback s) as [r s2].
    simpl in *. subst r.
    destruct (IH s2) as (evs & Hevs & Hls).
    exists (ev ++ evs). rewrite Hevs, Hev, <- app_assoc.
    split; [done|]. rewrite length_app. lia.
Qed.

(** X7. [_monitor_loop] calls the callback at most once per iteration,
    and never for the count it reads before the first iteration. *)
Theorem monitor_loop_calls_at_most_once_per_iteration n s :
  let res := _monitor_loop GetSystemMetrics GetKeyState callback n s in
  exists evs,
    events (journal res.2) = events (journal s) ++ evs
    /\ (length evs <= n)%nat.
Proof.
  cbv zeta. unfold _monitor_loop. unfold bind at 1.
  destruct (count_input_devices_total GetSystemMetrics GetKeyState s)
    as (c & s1 & E & _ & He & _).
  rewrite E. run_m.
  match goal with |- context [repeat_m n _ ?f] =>
    destruct (repeat_tick_bound n f) as (evs & Hevs & Hl) end.
  simpl in Hevs. exists evs. by rewrite Hevs, He.
Qed.

(** X8. An iteration whose callback does not raise (or is not called)
    ends with the count it read stored in [last_device_count]. *)
Theorem tick_stores_count s c s1 :
  _count_input_devices GetSystemMetrics GetKeyState s = (Returned c, s1) ->
  callback_raises callback (self s) c (outside s1) = false ->
  last_device_count
    (self (tick GetSystemMetrics GetKeyState callback s).2) = c.
Proof.
  intros E Hok.
  destruct (count_input_devices_total GetSystemMetrics GetKeyState s)
    as (c' & s1' & E' & Hs & _).
  rewrite E in E'. injection E' as <- <-.
  rewrite (tick_feed GetSystemMetrics GetKeyState callback s c s1 E).
  destruct s1 as [d1 σ1 j1]. simpl in *. subst d1.
  by apply feed_stores_count.
Qed.
End LoopRestFacts.

Section WindowAndController.
Context {Σ : Type}.
Variable get_monitors : external Σ (list Monitor).
Variable monitor_enter : Monitor -> external Σ unit.
Variable set_input_source : Monitor -> source_code -> external Σ unit.
Variable monitor_exit : Monitor -> external Σ unit.

(** X9. Every input name the configuration window offers is a key of
    [INPUT_SOURCES]; on a healthy collaborator [switch_input] returns
    [True] for each of them. *)
Theorem combobox_values_are_supported name idx s :
  In name combobox_values ->
  healthy get_monitors monitor_enter set_input_source monitor_exit idx ->
  monitor_index (self s) = idx ->
  (exists src, INPUT_SOURCES !! name = Some src)
  /\ (switch_input get_monitors monitor_enter set_input_source monitor_exit
        (VStr name) s).1 = Returned true.
Proof.
  intros Hin Hh Hidx.
  assert (Hsrc : exists src, INPUT_SOURCES !! name = Some src).
  { unfold combobox_values in Hin. simpl in Hin.
    repeat (destruct Hin as [<-|Hin]; [eexists; reflexivity|]). done. }
  split; [done|]. destruct Hsrc as [src Hsrc].
  by destruct (switch_healthy get_monitors monitor_enter set_input_source
                 monitor_exit idx (VStr name) src s Hh Hsrc Hidx)
    as (H & _).
Qed.
End WindowAndController.

(** ** Worked scenarios for these methods *)

(** Setting an input and reading it back, on a monitor that reports
    the code of the input it was set to, with sources that compare by
    code: every name of the table comes back. *)
Example switch_then_read_back name src :
  INPUT_SOURCES !! name = Some src ->
  let switched :=
    switch_input (always [7%nat]) (fun _ => always tt) remembering_set
      (fun _ => always tt) (VStr name)
      (Frame {| monitor_index := 0; monitor := None |} None []) in
  switched.1 = Returned true
  /\ (get_current_input (fun _ => always tt) remembering_get equal_by_code
        (fun _ => always tt) no_logger switched.2).1
     = Returned (Some name).
Proof.
  intros H. apply INPUT_SOURCES_items_lookup in H.
  unfold INPUT_SOURCES_items in H.
  repeat (apply elem_of_cons in H as [[= -> ->]|H];
          [split; reflexivity|]).
  by apply elem_of_nil in H.
Qed.

Lemma init_monitor_outcome_witness :
  monitor
    (self (_init_monitor (always [7%nat; 8%nat])
             (Frame {| monitor_index := -1; monitor := None |} tt [])).2)
  = Some 8%nat.
Proof.
  destruct (init_monitor_outcome (always [7%nat; 8%nat]) (-1) None tt [])
    as (_ & _ & _ & H & _).
  destruct (H [7%nat; 8%nat] eq_refl) as (_ & H2 & _).
  apply H2. simpl. lia.
Defined.

Lemma get_current_input_answer_witness :
  (get_current_input (fun _ => always tt) remembering_get equal_by_code
     (fun _ => always tt) no_logger
     (Frame {| monitor_index := 0; monitor := Some 7%nat |}
        (Some (Member HDMI1)) [])).1
  = Returned (Some "HDMI-1").
Proof.
  destruct (get_current_input_answer (fun _ => always tt) remembering_get
              equal_by_code (fun _ => always tt) no_logger
              {| monitor_index := 0; monitor := Some 7%nat |}
              (Some (Member HDMI1)) []) as (_ & _ & _ & H & _).
  apply H. exists 7%nat, (Some (Member HDMI1)), 17, (Some (Member HDMI1)).
  repeat split; reflexivity.
Defined.

Lemma load_config_outcome_witness :
  (_load_config (O:=unit) (fun _ => always false)
     (fun _ => failing os_error) no_logger "config.json"
     (Frame tt tt [])).1
  = Returned default_data.
Proof.
  destruct (load_config_outcome (fun _ => always false)
              (fun _ => failing os_error) no_logger "config.json"
              (Frame tt tt [])) as (H & _).
  exact (f_equal fst (H tt eq_refl)).
Defined.

Lemma config_set_then_get_witness :
  let c := {| config_file := "config.json"; data := default_data |} in
  let after :=
    (Config_set (fun _ _ => failing os_error) "home_machine_input"
       (VStr "DVI-1") (Frame c tt [])).2 in
  (Config_get (Σ:=unit) "work_laptop_input" (VStr "HDMI-2") after).1
  = Returned (VStr "HDMI-2")
  /\ data (self after) !! "home_machine_input" = Some (VStr "DVI-1").
Proof.
  intros c after.
  destruct (config_set_then_get (fun _ _ => failing os_error)
              "home_machine_input" (VStr "DVI-1") c tt [])
    as (_ & _ & _ & H & _ & _ & H').
  split.
  - unfold after.
    rewrite (H "work_laptop_input" (VStr "HDMI-2")); [reflexivity|].
    discriminate.
  - exact (proj1 (H' os_error eq_refl)).
Defined.

Lemma save_writes_entry_by_entry_witness :
  let c := {| config_file := "config.json"; data := default_data |} in
  let value_error := OtherException "ValueError" "invalid literal" in
  let res :=
    _save (Σ:=unit) (fun _ _ => always tt) (always "DVI-1")
      (always "HDMI-1") (always "two") (fun _ => Raised value_error)
      (always tt) (Some (always tt)) (always tt) (Frame c tt []) in
  res.1 = Raised value_error
  /\ data (self res.2) !! "home_machine_input" = Some (VStr "DVI-1")
  /\ data (self res.2) !! "monitor_index" = Some (VInt 0).
Proof.
  intros c value_error res.
  destruct (save_writes_entry_by_entry (Σ:=unit) (fun _ _ => always tt)
              (always "DVI-1") (always "HDMI-1") (always "two")
              (fun _ => Raised value_error) (always tt)
              (Some (always tt)) (always tt) c tt []
              "DVI-1" "HDMI-1" "two"
              (fun _ => eq_refl) (fun _ => eq_refl) (fun _ => eq_refl))
    as (H & _).
  destruct (H value_error eq_refl) as (H1 & H2 & _).
  split; [exact H1|]. fold res in H2. rewrite H2. split; reflexivity.
Defined.

Lemma tick_stores_count_witness :
  last_device_count
    (self (tick (always 3) (fun _ => always 0) (fun _ => always tt)
             (Frame {| last_device_count := 7; last_state := Home |}
                tt [])).2)
  = 5.
Proof.
  exact (tick_stores_count (always 3) (fun _ => always 0)
           (fun _ => always tt)
           (Frame {| last_device_count := 7; last_state := Home |} tt [])
           5 _ eq_refl eq_refl).
Defined.

Lemma combobox_values_are_supported_witness :
  (switch_input (always [7%nat]) (fun _ => always tt)
     (fun _ _ => always tt) (fun _ => always tt) (VStr "VGA-1")
     (Frame {| monitor_index := 0; monitor := None |} tt [])).1
  = Returned true.
Proof.
  refine (proj2 (combobox_values_are_supported (always [7%nat])
                   (fun _ => always tt) (fun _ _ => always tt)
                   (fun _ => always tt) "VGA-1" 0
                   (Frame {| monitor_index := 0; monitor := None |} tt [])
                   _ healthy_bus eq_refl)).
  simpl. tauto.
Defined.
